(** * Payment tracking flow of servidor-loja-digital (server.js, src/routes.ts)

    A shallow embedding of the in-memory payment store [pagamentos] of
    server.js and of the request handlers that read and write it, plus the
    [retryWithBackoff] helper and the [total] transform of src/routes.ts.

    Conventions of the embedding:
    - the JS object [pagamentos] is a [gmap string registro] (keys are the
      string forms of the gateway payment ids);
    - [Date.now()] and [new Date().toISOString()] are explicit inputs
      ([agora : Z] in milliseconds, [iso : string]);
    - the Mercado Pago client is an explicit input: the result of
      [paymentClient.create] / [paymentClient.get] ([GwOk] or [GwErr msg]
      for a thrown error);
    - a JS number is NaN, an infinity, or a finite binary64 value, written
      as the exact rational [Q] it denotes; [parseFloat] and [* 100] round
      to binary64 (round to nearest, ties to even) with the Standard
      Library's [SpecFloat] ([binary_round_aux] at precision 53, [emax]
      1024), so overflow gives an infinity and underflow a subnormal or 0;
    - strings are the UTF-8 bytes of the JS string ([list ascii]), so a
      non-ASCII character such as U+00A0 is a sequence of bytes;
    - [pagamentos] is an object literal: a lookup of a name of
      [Object.prototype] ([toString], [constructor], ...) finds an inherited
      function. The embedding of the lookups only covers the other ids, and
      statements about ids not in the store exclude those names
      ([prototype_keys]). *)

From Stdlib Require Import ZArith QArith Qround List Ascii String.
From Stdlib Require Import Floats.SpecFloat.
From stdpp Require Import base gmap strings.
Import ListNotations.
Open Scope Z_scope.

(* ------------------------------------------------------------------ *)
(** ** JS values of the request body *)

(** [req.body.total] as received from [express.json()]; a number is the
    binary64 value [JSON.parse] gives it. *)
Inductive jsval :=
| JNum (q : Q)
| JStr (s : string)
| JBool (b : bool)
| JNull
| JUndef.

(** The value of [valorTotal] once strings have been run through
    [parseFloat]: it is never a string. *)
Inductive valor :=
| VNum (q : Q)
| VInf (neg : bool)          (* [Infinity], or [-Infinity] when [neg] *)
| VNaN
| VBool (b : bool)
| VNull
| VUndef.

(** A JS number. *)
Inductive num :=
| NFin (q : Q)
| NInf (neg : bool)
| NNaN.

(** JS [ToNumber] on the values [valorTotal] can hold. *)
Definition to_num (v : valor) : num :=
  match v with
  | VNum q => NFin q
  | VInf neg => NInf neg
  | VNaN => NNaN
  | VBool true => NFin 1
  | VBool false => NFin 0
  | VNull => NFin 0
  | VUndef => NNaN
  end.

(** The finite value of [ToNumber] ([None] for NaN and the infinities). *)
Definition to_number (v : valor) : option Q :=
  match to_num v with NFin q => Some q | _ => None end.

(** [isNaN(v)] *)
Definition isNaN (v : valor) : bool :=
  match to_num v with NNaN => true | _ => false end.

(** [v <= 0] (false when [v] is NaN) *)
Definition le_zero (v : valor) : bool :=
  match to_num v with
  | NFin q => Qle_bool q 0
  | NInf neg => neg
  | NNaN => false
  end.

(** JS truthiness of a number: false for 0 and NaN. *)
Definition num_truthy (n : num) : bool :=
  match n with
  | NFin q => negb (Qeq_bool q 0)
  | NInf _ => true
  | NNaN => false
  end.

Definition num_to_valor (n : num) : valor :=
  match n with NFin q => VNum q | NInf neg => VInf neg | NNaN => VNaN end.

(* ------------------------------------------------------------------ *)
(** ** Binary64 arithmetic *)

Definition prec64 : Z := 53.
Definition emax64 : Z := 1024.

(** The value of a [SpecFloat] number ([-0] is 0), in lowest terms. *)
Definition float_to_num (f : spec_float) : num :=
  match f with
  | S754_zero _ => NFin 0
  | S754_infinity neg => NInf neg
  | S754_nan => NNaN
  | S754_finite neg m e =>
      let q := if 0 <=? e then inject_Z (Zpos m * 2 ^ e)
               else Qmake (Zpos m) (Z.to_pos (2 ^ (- e))) in
      NFin (Qred (if neg then Qopp q else q))
  end.

(** [m / d] with sign [neg], rounded to binary64 (ties to even). *)
Definition round_mag (neg : bool) (m d : positive) : spec_float :=
  let '(mz, ez, lz) := SFdiv_core_binary prec64 emax64 (Zpos m) 0 (Zpos d) 0 in
  binary_round_aux prec64 emax64 neg mz ez lz.

(** The binary64 number nearest to a rational. *)
Definition round64 (q : Q) : num :=
  match Qnum q with
  | Z0 => NFin 0
  | Zpos m => float_to_num (round_mag false m (Qden q))
  | Zneg m => float_to_num (round_mag true m (Qden q))
  end.

(** [v * 100] *)
Definition js_mul100 (v : valor) : num :=
  match to_num v with
  | NFin q => round64 (q * inject_Z 100)
  | NInf neg => NInf neg
  | NNaN => NNaN
  end.

(** [Math.round(x)]: the integer nearest to [x], ties towards +Infinity. *)
Definition js_round (n : num) : num :=
  match n with
  | NFin q => NFin (inject_Z (Qfloor (q + (1 # 2))))
  | _ => n
  end.

(* ------------------------------------------------------------------ *)
(** ** String helpers: [String.prototype.replace] and [parseFloat] *)

(** [s.replace(pat, rep)] with a string pattern: first occurrence only. *)
Fixpoint replace_first (pat rep s : string) : string :=
  if String.prefix pat s
  then String.append rep (String.substring (String.length pat)
                             (String.length s - String.length pat) s)
  else match s with
       | EmptyString => EmptyString
       | String c s' => String c (replace_first pat rep s')
       end.

(** [s.replace(/c/g, "")]: every occurrence of the character removed. *)
Fixpoint remove_all (c : ascii) (s : string) : string :=
  match s with
  | EmptyString => EmptyString
  | String d s' => if Ascii.eqb c d then remove_all c s' else String d (remove_all c s')
  end.

Definition is_digit (c : ascii) : bool :=
  (Ascii.nat_of_ascii "0" <=? Ascii.nat_of_ascii c)%nat &&
  (Ascii.nat_of_ascii c <=? Ascii.nat_of_ascii "9")%nat.

Definition digit_val (c : ascii) : Z :=
  Z.of_nat (Ascii.nat_of_ascii c - Ascii.nat_of_ascii "0").

(** One-byte white space of [StrWhiteSpaceChar]: TAB, LF, VT, FF, CR, SP. *)
Definition is_space (c : ascii) : bool :=
  match Ascii.nat_of_ascii c with
  | 32 | 9 | 10 | 11 | 12 | 13 => true
  | _ => false
  end%nat.

(** Two-byte white space: U+00A0 (C2 A0). *)
Definition is_space2 (c1 c2 : ascii) : bool :=
  (Nat.eqb (Ascii.nat_of_ascii c1) 194 && Nat.eqb (Ascii.nat_of_ascii c2) 160)%bool.

(** Three-byte white space: U+1680, U+2000-U+200A, U+2028, U+2029, U+202F,
    U+205F, U+3000 and U+FEFF. *)
Definition is_space3 (c1 c2 c3 : ascii) : bool :=
  match Ascii.nat_of_ascii c1, Ascii.nat_of_ascii c2, Ascii.nat_of_ascii c3 with
  | 225, 154, 128 => true
  | 226, 128, n => (n <=? 138) && (128 <=? n) || Nat.eqb n 168 || Nat.eqb n 169
                   || Nat.eqb n 175
  | 226, 129, 159 => true
  | 227, 128, 128 => true
  | 239, 187, 191 => true
  | _, _, _ => false
  end%nat%bool.

(** The leading white space and line terminators removed, as by the
    [TrimString] of [parseFloat]. *)
Fixpoint skip_spaces (s : string) : string :=
  match s with
  | String c r =>
      if is_space c then skip_spaces r
      else match r with
           | String c2 r2 =>
               if is_space2 c c2 then skip_spaces r2
               else match r2 with
                    | String c3 r3 => if is_space3 c c2 c3 then skip_spaces r3 else s
                    | EmptyString => s
                    end
           | EmptyString => s
           end
  | EmptyString => EmptyString
  end.

(** Longest run of digits: (value accumulated onto [acc], digit count, rest). *)
Fixpoint take_digits (acc : Z) (n : nat) (s : string) : Z * nat * string :=
  match s with
  | String c s' =>
      if is_digit c then take_digits (acc * 10 + digit_val c) (S n) s'
      else (acc, n, s)
  | EmptyString => (acc, n, s)
  end.

(** Optional exponent part [e[+-]digits]; it is only consumed when at least
    one digit follows. *)
Definition exponent (s : string) : Z :=
  match s with
  | String e s' =>
      if (Ascii.eqb e "e" || Ascii.eqb e "E")%bool then
        let '(sg, s'') :=
          match s' with
          | String "-"%char r => (-1, r)
          | String "+"%char r => (1, r)
          | _ => (1, s')
          end in
        let '(x, n, _) := take_digits 0 0 s'' in
        if (n =? 0)%nat then 0 else sg * x
      else 0
  | EmptyString => 0
  end.

(** [m * 10^k] as a rational. *)
Definition scale10 (m k : Z) : Q :=
  if 0 <=? k then inject_Z (m * 10 ^ k) else Qmake m (Z.to_pos (10 ^ (- k))).

(** [parseFloat(s)]: after the leading white space, ["Infinity"] with an
    optional sign, or else the longest prefix that is a signed decimal
    literal with optional fraction and exponent, rounded to binary64; NaN
    when there is no digit. *)
Definition parseFloat (s : string) : valor :=
  let s := skip_spaces s in
  let '(sg, s) :=
    match s with
    | String "-"%char r => (-1, r)
    | String "+"%char r => (1, r)
    | _ => (1, s)
    end in
  if String.prefix "Infinity" s then VInf (sg <? 0)
  else
    let '(ip, ni, s) := take_digits 0 0 s in
    let '(m, nf, s) :=
      match s with
      | String "."%char r => take_digits ip 0 r
      | _ => (ip, 0%nat, s)
      end in
    if ((ni + nf) =? 0)%nat then VNaN
    else num_to_valor (round64 (scale10 (sg * m) (exponent s - Z.of_nat nf))).

(* ------------------------------------------------------------------ *)
(** ** Catalog ([Produtos.js]) and cart items *)

Record produto := {
  p_id : string;
  p_nome : string;
  p_preco : Q;
  p_linkDownload : string
}.

(** [item.product] of the nested cart shape. *)
Record product_ref := {
  pr_id : option string;
  pr_name : option string;
  pr_nome : option string
}.

(** A cart entry: an object (possibly with a nested [product]), a bare
    string id, or [null]. *)
Inductive cart_item :=
| CartObj (product : option product_ref) (id : option string)
          (name nome : option string) (quantity : option Z)
| CartStr (s : string)
| CartNull.

(** JS truthiness of an optional string / number, and [a || b]. *)
Definition truthy_str (o : option string) : option string :=
  match o with Some "" => None | Some s => Some s | None => None end.

Definition or_str (a b : option string) : option string :=
  match truthy_str a with Some s => Some s | None => truthy_str b end.

Definition or_one (q : option Z) : Z :=
  match q with Some 0 | None => 1 | Some n => n end.

(** An entry of [produtosEncontrados]. *)
Record produto_item := {
  pi_id : string;
  pi_name : string;
  pi_downloadUrl : option string;
  pi_format : string;
  pi_fileSize : string;
  pi_quantity : Z;
  pi_price : Q
}.

(** Lines 107-122: [itemId], [itemName], [quantity] of a cart entry;
    [None] for a [null] entry, on which [item.product] (line 112) throws a
    TypeError. *)
Definition item_fields (item : cart_item) : option (option string * option string * Z) :=
  match item with
  | CartObj (Some p) id name nome q =>
      match truthy_str (pr_id p) with
      | Some pid => Some (Some pid, or_str (pr_name p) (pr_nome p), or_one q)
      | None =>
          match truthy_str id with
          | Some i => Some (Some i, or_str name nome, or_one q)
          | None => Some (None, None, 1)
          end
      end
  | CartObj None id name nome q =>
      match truthy_str id with
      | Some i => Some (Some i, or_str name nome, or_one q)
      | None => Some (None, None, 1)
      end
  | CartStr s => Some (truthy_str (Some s), None, 1)
  | CartNull => None
  end.

(** The message of that TypeError. *)
Definition erro_item_null : string := "Cannot read properties of null (reading 'product')".

(** [listarProdutos().find((prod) => prod.id === itemId)] *)
Definition find_produto (catalogo : list produto) (itemId : string) : option produto :=
  List.find (fun p => String.eqb (p_id p) itemId) catalogo.

(** One iteration of [carrinho.forEach] (lines 101-155) acting on the
    accumulators [links] and [produtosEncontrados]; [None] when it throws. *)
Definition process_item (catalogo : list produto) (item : cart_item)
    (acc : list string * list produto_item) : option (list string * list produto_item) :=
  let '(links, encontrados) := acc in
  match item_fields item with
  | None => None
  | Some (itemId, itemName, quantity) =>
  Some match itemId with
  | None => acc
  | Some iid =>
      match find_produto catalogo iid with
      | Some p =>
          (links ++ [p_linkDownload p],
           encontrados ++ [{| pi_id := p_id p; pi_name := p_nome p;
                              pi_downloadUrl := Some (p_linkDownload p);
                              pi_format := "Digital"; pi_fileSize := "N/A";
                              pi_quantity := quantity; pi_price := p_preco p |}])
      | None =>
          (links,
           encontrados ++ [{| pi_id := iid;
                              pi_name := match itemName with
                                         | Some n => n
                                         | None => String.append "Produto ID: " iid
                                         end;
                              pi_downloadUrl := None;
                              pi_format := "Digital"; pi_fileSize := "N/A";
                              pi_quantity := quantity; pi_price := 0%Q |}])
      end
  end
  end.

(** The whole [forEach]: the exception of an iteration ends the loop. *)
Definition process_cart (catalogo : list produto) (carrinho : list cart_item)
    : option (list string * list produto_item) :=
  fold_left (fun acc item => match acc with
                             | Some a => process_item catalogo item a
                             | None => None
                             end) carrinho (Some ([], [])).

(* ------------------------------------------------------------------ *)
(** ** The payment record and the gateway *)

Record qr_data := {
  qr_code_base64 : string;
  qr_code : string;
  ticket_url : string
}.

(** A value of [pagamentos]. Fields that only the record built by
    [/criar-pagamento] has (and [updatedAt], only set by later updates) are
    options. *)
Record registro := {
  status : string;
  statusDetail : string;
  links : list string;
  criadoEm : Z;
  paymentId : string;
  customerEmail : string;
  customerName : option string;
  total : valor;
  totalCentavos : num;
  products : list produto_item;
  createdAt : string;
  carrinhoOriginal : option (list cart_item);
  externalReference : option Z;  (* the [n] of [loja_<n>] *)
  qrData : option qr_data;
  updatedAt : option string
}.

(** A payment object returned by the Mercado Pago client. *)
Record gw_payment := {
  g_id : string;
  g_status : string;
  g_status_detail : string;
  g_transaction_amount : Q;
  g_transaction_data : qr_data
}.

(** Outcome of an awaited gateway call: a payment, or the error it threw. *)
Inductive gw_result :=
| GwOk (p : gw_payment)
| GwErr (message : string).

(** The body sent to [paymentClient.create] (fields the flow computes). *)
Record create_req := {
  transaction_amount : valor;
  payer_email : string;
  payer_first_name : string
}.

(** [Math.round(v * 100)] *)
Definition math_round_100 (v : valor) : num := js_round (js_mul100 v).

(* ------------------------------------------------------------------ *)
(** ** POST /criar-pagamento (server.js lines 53-203) *)

Inductive create_resp :=
| CreateBadRequest (error : string)
| CreateServerError (error detalhes : string)
| CreateOk (id st : string) (qr : qr_data) (linksCount productsCount : nat).

(** Lines 67-70: [valorTotal]. *)
Definition valor_total (t : jsval) : valor :=
  match t with
  | JStr s => parseFloat (replace_first "," "." (remove_all "." (replace_first "R$" "" s)))
  | JNum q => VNum q
  | JBool b => VBool b
  | JNull => VNull
  | JUndef => VUndef
  end.

(** Lines 158-178: the record stored for a created payment. *)
Definition novo_registro (p : gw_payment) (links : list string)
    (encontrados : list produto_item) (carrinho : list cart_item)
    (email nomeCliente : string) (valorTotal : valor) (agora : Z) (iso : string)
    : registro :=
  {| status := g_status p;
     statusDetail := g_status_detail p;
     links := links;
     criadoEm := agora;
     paymentId := g_id p;
     customerEmail := email;
     customerName := Some nomeCliente;
     total := valorTotal;
     totalCentavos := math_round_100 valorTotal;
     products := encontrados;
     createdAt := iso;
     carrinhoOriginal := Some carrinho;
     externalReference := Some agora;
     qrData := Some (g_transaction_data p);
     updatedAt := None |}.

(** The handler. [carrinho] is [None] when the body field is missing or not
    an array; [gw_create] is the gateway's answer to the request it is
    given. *)
Definition criar_pagamento (catalogo : list produto)
    (carrinho : option (list cart_item)) (nomeCliente email : option string)
    (t : jsval) (gw_create : create_req -> gw_result) (agora : Z) (iso : string)
    (pagamentos : gmap string registro) : create_resp * gmap string registro :=
  match carrinho with
  | None | Some [] => (CreateBadRequest "Carrinho inválido ou vazio.", pagamentos)
  | Some itens =>
    match truthy_str nomeCliente, truthy_str email with
    | Some nome, Some mail =>
      let valorTotal := valor_total t in
      if (isNaN valorTotal || le_zero valorTotal)%bool
      then (CreateBadRequest "Valor total inválido.", pagamentos)
      else
        match gw_create {| transaction_amount := valorTotal; payer_email := mail;
                           payer_first_name := nome |} with
        | GwErr msg => (CreateServerError "Erro ao criar pagamento" msg, pagamentos)
        | GwOk p =>
            match process_cart catalogo itens with
            | None => (CreateServerError "Erro ao criar pagamento" erro_item_null, pagamentos)
            | Some (links, encontrados) =>
                (CreateOk (g_id p) (g_status p) (g_transaction_data p)
                          (List.length links) (List.length encontrados),
                 <[g_id p := novo_registro p links encontrados itens mail nome
                                           valorTotal agora iso]> pagamentos)
            end
        end
    | _, _ => (CreateBadRequest "Nome e email são obrigatórios.", pagamentos)
    end
  end.

(* ------------------------------------------------------------------ *)
(** ** POST /webhook (server.js lines 206-256) *)

(** The in-place update of lines 227-229 on the record object. *)
Definition set_status (r : registro) (st detail iso : string) : registro :=
  {| status := st; statusDetail := detail; links := links r;
     criadoEm := criadoEm r; paymentId := paymentId r;
     customerEmail := customerEmail r; customerName := customerName r;
     total := total r; totalCentavos := totalCentavos r;
     products := products r; createdAt := createdAt r;
     carrinhoOriginal := carrinhoOriginal r;
     externalReference := externalReference r; qrData := qrData r;
     updatedAt := Some iso |}.

(** Lines 225-243, the [updateStatus] step of the deferred reconciliation:
    [if (pagamentos[paymentId]) { ...status, statusDetail, updatedAt... }]. *)
Definition updateStatus (paymentId : string) (st detail iso : string)
    (pagamentos : gmap string registro) : gmap string registro :=
  match pagamentos !! paymentId with
  | Some r => <[paymentId := set_status r st detail iso]> pagamentos
  | None => pagamentos
  end.

(** The callback of [setTimeout] (lines 219-250): query the gateway, then
    update; a thrown error is only logged. *)
Definition webhook_deferred (paymentId : string) (gw : gw_result) (iso : string)
    (pagamentos : gmap string registro) : gmap string registro :=
  match gw with
  | GwOk p => updateStatus paymentId (g_status p) (g_status_detail p) iso pagamentos
  | GwErr _ => pagamentos
  end.

(** The whole webhook: the answer is always ["OK"]; the deferred work only
    runs for [type === "payment"] with a truthy [data.id]. *)
Definition webhook (type_ : option string) (data_id : option string)
    (gw : gw_result) (iso : string) (pagamentos : gmap string registro)
    : string * gmap string registro :=
  ("OK",
   match type_, truthy_str data_id with
   | Some ty, Some pid =>
       if String.eqb ty "payment" then webhook_deferred pid gw iso pagamentos
       else pagamentos
   | _, _ => pagamentos
   end).

(* ------------------------------------------------------------------ *)
(** ** GET /status-pagamento/:id (server.js lines 259-360) *)

(** [responseData] of lines 329-341. *)
Record status_view := {
  sv_status : string;
  sv_statusDetail : string;
  sv_paymentId : string;
  sv_products : list produto_item;
  sv_customerEmail : string;
  sv_total : num;
  sv_createdAt : string;
  sv_updatedAt : string;
  sv_hasLinks : bool;
  sv_linksCount : nat
}.

Definition or_string (a b : string) : string :=
  match a with EmptyString => b | _ => a end.

(** [registro.totalCentavos || registro.total * 100 || 0] *)
Definition view_total (r : registro) : num :=
  if num_truthy (totalCentavos r) then totalCentavos r
  else if num_truthy (js_mul100 (total r)) then js_mul100 (total r)
  else NFin 0.

Definition view (id : string) (r : registro) (iso : string) : status_view :=
  {| sv_status := status r;
     sv_statusDetail := statusDetail r;
     sv_paymentId := or_string (paymentId r) id;
     sv_products := products r;
     sv_customerEmail := or_string (customerEmail r) "N/A";
     sv_total := view_total r;
     sv_createdAt := or_string (createdAt r) iso;
     sv_updatedAt := match updatedAt r with
                     | Some u => or_string u (or_string (createdAt r) iso)
                     | None => or_string (createdAt r) iso
                     end;
     sv_hasLinks := negb (Nat.eqb (List.length (links r)) 0);
     sv_linksCount := List.length (links r) |}.

(** Lines 276-288: the minimal record for a payment unknown to the store. *)
Definition registro_minimo (id : string) (p : gw_payment) (agora : Z) (iso : string)
    : registro :=
  {| status := g_status p; statusDetail := g_status_detail p; paymentId := id;
     products := []; customerEmail := "N/A";
     total := VNum (g_transaction_amount p);
     totalCentavos := math_round_100 (VNum (g_transaction_amount p));
     createdAt := iso; updatedAt := Some iso; links := []; criadoEm := agora;
     customerName := None; carrinhoOriginal := None; externalReference := None;
     qrData := None |}.

Inductive status_resp :=
| StatusNotFound                (* 404 "Pagamento não encontrado" *)
| StatusOk (v : status_view).

(** The handler. [gw_get] is the gateway's answer to [paymentClient.get];
    the last component lists the ids the handler queried the gateway for. *)
Definition status_pagamento (id : string) (gw_get : string -> gw_result)
    (agora : Z) (iso : string) (pagamentos : gmap string registro)
    : status_resp * gmap string registro * list string :=
  match pagamentos !! id with
  | None =>
      match gw_get id with
      | GwOk p =>
          let r := registro_minimo id p agora iso in
          (StatusOk (view id r iso), <[id := r]> pagamentos, [id])
      | GwErr _ => (StatusNotFound, pagamentos, [id])
      end
  | Some r =>
      if (String.eqb (status r) "pending" || String.eqb (status r) "in_process")%bool
      then
        match gw_get id with
        | GwOk p =>
            let r' := set_status r (g_status p) (g_status_detail p) iso in
            (StatusOk (view id r' iso), <[id := r']> pagamentos, [id])
        | GwErr _ => (StatusOk (view id r iso), pagamentos, [id])
        end
      else (StatusOk (view id r iso), pagamentos, [])
  end.

(* ------------------------------------------------------------------ *)
(** ** GET /link-download/:id (server.js lines 363-435) *)

Inductive download_resp :=
| DlGwNotApproved (st : string)          (* 403, unknown record, gateway not approved *)
| DlGwNotProcessed (st : string)         (* 404, unknown record, gateway approved *)
| DlGwNotFound                           (* 404, unknown record, gateway error *)
| DlNotApproved (st detail : string)     (* 403 "Pagamento ainda não aprovado" *)
| DlExpired                              (* 410 "Links de download expiraram" *)
| DlNoLinks                              (* 404 "Nenhum link de download disponível" *)
| DlOk (lks : list string) (prods : list produto_item)
       (name : option string) (tot : valor).

(** [tempoExpiracao], 24 hours in milliseconds. *)
Definition tempoExpiracao : Z := 24 * 60 * 60 * 1000.

Definition link_download (id : string) (gw_get : string -> gw_result) (agora : Z)
    (pagamentos : gmap string registro) : download_resp :=
  match pagamentos !! id with
  | None =>
      match gw_get id with
      | GwOk p => if String.eqb (g_status p) "approved"
                  then DlGwNotProcessed (g_status p)
                  else DlGwNotApproved (g_status p)
      | GwErr _ => DlGwNotFound
      end
  | Some r =>
      if negb (String.eqb (status r) "approved") then DlNotApproved (status r) (statusDetail r)
      else if tempoExpiracao <? agora - criadoEm r then DlExpired
      else match links r with
           | [] => DlNoLinks
           | _ => DlOk (links r) (products r) (customerName r) (total r)
           end
  end.

(* ------------------------------------------------------------------ *)
(** ** The periodic sweep (server.js lines 40-50) *)

(** [umaHora], one hour in milliseconds. *)
Definition umaHora : Z := 60 * 60 * 1000.

(** The body of the [setInterval] callback with its age limit as a
    parameter: every id with [agora - criadoEm > limite] is deleted. *)
Definition remover_antigos (limite agora : Z) (pagamentos : gmap string registro)
    : gmap string registro :=
  filter (fun kv : string * registro => ~ (limite < agora - criadoEm kv.2)) pagamentos.

(** The callback as scheduled every 15 minutes, with [limite = umaHora]. *)
Definition limpeza (agora : Z) (pagamentos : gmap string registro) : gmap string registro :=
  remover_antigos umaHora agora pagamentos.

(* ------------------------------------------------------------------ *)
(** ** src/routes.ts: the [total] transform of [createPaymentSchema] *)

(** Outcome of the [total] field of the schema (lines 68-74): the union
    rejects the value (a zod issue), the transform throws, or it yields a
    value. *)
Inductive zod_total :=
| ZInvalid
| ZThrows (message : string)
| ZValue (v : valor).

Definition total_transform (num : valor) : zod_total :=
  if (isNaN num || le_zero num)%bool
  then ZThrows "Total deve ser um número maior que zero"
  else ZValue num.

Definition routes_total (t : jsval) : zod_total :=
  match t with
  | JNum q => total_transform (VNum q)
  | JStr s => total_transform (parseFloat s)
  | _ => ZInvalid
  end.

(** [s.includes(pat)] *)
Definition str_includes (pat s : string) : bool :=
  match String.index 0 pat s with Some _ => true | None => false end.

(** Answers of POST /api/payments/criar-pagamento up to the validation. *)
Inductive routes_create_resp :=
| RcBadRequest (error : string)               (* 400 *)
| RcServerError (error details : string)      (* 500 *)
| RcValidated (total : valor).                (* [validation.data.total] *)

(** The [catch] of lines 565-596 for an [Error] with message [msg]. *)
Definition routes_catch (msg : string) : routes_create_resp :=
  if str_includes "without key enabled for QR" msg
  then RcBadRequest "Token do Mercado Pago não configurado para PIX"
  else if str_includes "bad_request" msg
  then RcBadRequest "Erro na requisição para Mercado Pago"
  else RcServerError "Erro interno do servidor" msg.

(** Lines 404-411 for a body whose other fields satisfy the schema:
    [safeParse] reports a zod issue as a 400 "Dados inválidos", but an
    exception thrown by a transform is not caught by [safeParse] and goes
    to the handler's [catch]. *)
Definition routes_validacao (t : jsval) : routes_create_resp :=
  match routes_total t with
  | ZInvalid => RcBadRequest "Dados inválidos"
  | ZThrows msg => routes_catch msg
  | ZValue v => RcValidated v
  end.

(** [routes_validacao] on a total that passes the union, as a function of
    the value the transform receives. *)
Definition routes_catch_or (num : valor) : routes_create_resp :=
  match total_transform num with
  | ZThrows msg => routes_catch msg
  | ZValue v => RcValidated v
  | ZInvalid => RcBadRequest "Dados inválidos"
  end.

(* ------------------------------------------------------------------ *)
(** ** src/routes.ts: [retryWithBackoff] (lines 37-51) *)

Module Retry.

Section Retry.

Context {T E : Type}.

(** Observable events: the [i]-th call of [fn] (from 0) and a timer wait. *)
Inductive event :=
| Invoke (i : nat)
| Sleep (ms : Z).

Inductive outcome :=
| Ok (v : T)
| Err (e : E).

Inductive result :=
| Returned (v : T)
| Thrown (e : E)
| MaxRetriesExceeded.   (* the final [throw new Error("Max retries exceeded")] *)

(** [fn i] is the outcome of the [i]-th call of [fn]. The loop
    [for (let i = 0; i < maxRetries; i++)] runs with [fuel = maxRetries - i]. *)
Fixpoint loop (fn : nat -> outcome) (maxRetries delay : Z) (i fuel : nat)
    : list event * result :=
  match fuel with
  | O => ([], MaxRetriesExceeded)
  | S fuel' =>
      match fn i with
      | Ok v => ([Invoke i], Returned v)
      | Err e =>
          if Z.eqb (Z.of_nat i) (maxRetries - 1) then ([Invoke i], Thrown e)
          else let '(tr, r) := loop fn maxRetries delay (S i) fuel' in
               (Invoke i :: Sleep (delay * (Z.of_nat i + 1)) :: tr, r)
      end
  end.

Definition retryWithBackoff (fn : nat -> outcome) (maxRetries delay : Z)
    : list event * result :=
  loop fn maxRetries delay 0 (Z.to_nat maxRetries).

Definition is_err (o : outcome) : Prop :=
  match o with Err _ => True | Ok _ => False end.

(** The trace of attempts [i .. k-1] failing and attempt [k] being the last:
    each failed attempt [j] is followed by a wait of [delay * (j + 1)]. *)
Definition schedule (delay : Z) (i k : nat) : list event :=
  flat_map (fun j => [Invoke j; Sleep (delay * (Z.of_nat j + 1))]) (seq i (k - i))
  ++ [Invoke k].

Fixpoint invocations (tr : list event) : nat :=
  match tr with
  | [] => O
  | Invoke _ :: tr' => S (invocations tr')
  | Sleep _ :: tr' => invocations tr'
  end.

End Retry.


Arguments outcome : clear implicits.
Arguments result : clear implicits.

End Retry.

(* ------------------------------------------------------------------ *)
(** ** Auxiliary definitions used by the statements *)

Definition terminal (st : string) : Prop :=
  st = "approved" \/ st = "rejected" \/ st = "cancelled".

(** "[v] is a positive number": a JS number value, not NaN, above 0
    ([Infinity] included). *)
Definition positive_number (v : valor) : Prop :=
  (exists q, v = VNum q /\ (0 < q)%Q) \/ v = VInf false.

(** [itemId] of a cart entry (lines 107-122). *)
Definition item_id (item : cart_item) : option string :=
  match item_fields item with Some f => f.1.1 | None => None end.

(** The links and line items one cart entry contributes. *)
Definition item_links (catalogo : list produto) (item : cart_item) : list string :=
  match process_item catalogo item ([], []) with Some a => a.1 | None => [] end.

Definition item_entries (catalogo : list produto) (item : cart_item) : list produto_item :=
  match process_item catalogo item ([], []) with Some a => a.2 | None => [] end.

(** The names of [Object.prototype] (Node.js): [pagamentos[id]] finds an
    inherited value for them even when the store has no record. *)
Definition prototype_keys : list string :=
  ["constructor"; "__defineGetter__"; "__defineSetter__"; "hasOwnProperty";
   "__lookupGetter__"; "__lookupSetter__"; "isPrototypeOf";
   "propertyIsEnumerable"; "toString"; "valueOf"; "__proto__"; "toLocaleString"].

(* ------------------------------------------------------------------ *)
(** ** Sequences of requests acting on the store *)

(** The requests and timer events that act on the store, with their inputs. *)
Inductive acao :=
| ACriar (catalogo : list produto) (carrinho : option (list cart_item))
         (nomeCliente email : option string) (t : jsval)
         (gw_create : create_req -> gw_result) (agora : Z) (iso : string)
| AWebhook (type_ data_id : option string) (gw : gw_result) (iso : string)
| AStatus (id : string) (gw_get : string -> gw_result) (agora : Z) (iso : string)
| ADownload (id : string) (gw_get : string -> gw_result) (agora : Z)
| ALimpeza (agora : Z).

Definition exec (a : acao) (pagamentos : gmap string registro) : gmap string registro :=
  match a with
  | ACriar cat car nc em t gwc agora iso => (criar_pagamento cat car nc em t gwc agora iso pagamentos).2
  | AWebhook ty did gw iso => (webhook ty did gw iso pagamentos).2
  | AStatus id gw agora iso => (status_pagamento id gw agora iso pagamentos).1.2
  | ADownload _ _ _ => pagamentos
  | ALimpeza agora => limpeza agora pagamentos
  end.

Fixpoint exec_all (acoes : list acao) (pagamentos : gmap string registro)
    : gmap string registro :=
  match acoes with
  | [] => pagamentos
  | a :: rest => exec_all rest (exec a pagamentos)
  end.

(** The gateway does not assign [id] to a payment created by [a]. *)
Definition nao_cria (id : string) (a : acao) : Prop :=
  match a with
  | ACriar _ _ _ _ _ gwc _ _ => forall req p, gwc req = GwOk p -> g_id p <> id
  | _ => True
  end.

(** The store has no links for [id]: the id is absent or its record has an
    empty [links] list. *)
Definition sem_links (id : string) (pagamentos : gmap string registro) : Prop :=
  match pagamentos !! id with
  | None => True
  | Some r => links r = []
  end.

(* ------------------------------------------------------------------ *)
(** ** Produtos.js: the catalog array *)

(** [getProdutoPorId]: [produtos.find((produto) => produto.id === id)]. *)
Definition getProdutoPorId (produtos : list produto) (id : string) : option produto :=
  List.find (fun p => String.eqb (p_id p) id) produtos.

(** [adicionarProduto]: [produtos.push(produto)]. *)
Definition adicionarProduto (novo : produto) (produtos : list produto) : list produto :=
  produtos ++ [novo].

(** [removerProduto]: [produtos = produtos.filter((produto) => produto.id !== id)]. *)
Definition removerProduto (id : string) (produtos : list produto) : list produto :=
  List.filter (fun p => negb (String.eqb (p_id p) id)) produtos.

(* ------------------------------------------------------------------ *)
(** ** server.js: CORS origin check (lines 11-29) *)

Definition allowedOrigins : list string :=
  ["https://artfy.netlify.app"; "http://localhost:5173";
   "https://servidor-loja-digital.onrender.com"].

Definition includes (l : list string) (x : string) : bool := existsb (String.eqb x) l.

(** The [origin] callback: [true] is [callback(null, true)], [false] the
    "CORS origin não permitida" error. [None] is a request without Origin. *)
Definition cors_origin (origin : option string) : bool :=
  match truthy_str origin with
  | None => true
  | Some o =>
      if includes allowedOrigins o then true
      else if includes allowedOrigins o then true
      else false
  end.

(* ------------------------------------------------------------------ *)
(** ** server.js: admin routes (lines 489-543) *)

(** [verificarAuth] and the check of [/admin/pagamentos]. *)
Definition verificarAuth (authorization : option string) : bool :=
  match authorization with
  | Some a => String.eqb a "Bearer senha-secreta"
  | None => false
  end.

Inductive admin_resp :=
| AdminUnauthorized                  (* 401 "Não autorizado" *)
| AdminBadRequest                    (* 400 "Campos obrigatórios: ..." *)
| AdminAdded (p : produto)           (* { success: true, produto } *)
| AdminRemoved (id : string).        (* { success: true, id } *)

(** POST /admin/produtos, with [preco] received as a JSON number or absent
    ([!preco] holds for an absent price and for 0); [uuid] is the value of
    [crypto.randomUUID()]. *)
Definition admin_adicionar (authorization : option string) (nome : option string)
    (preco : option Q) (linkDownload : option string) (uuid : string)
    (produtos : list produto) : admin_resp * list produto :=
  if negb (verificarAuth authorization) then (AdminUnauthorized, produtos)
  else
    match truthy_str nome, preco, truthy_str linkDownload with
    | Some n, Some pr, Some l =>
        if Qeq_bool pr 0 then (AdminBadRequest, produtos)
        else
          let novo := {| p_id := uuid; p_nome := n; p_preco := pr; p_linkDownload := l |} in
          (AdminAdded novo, adicionarProduto novo produtos)
    | _, _, _ => (AdminBadRequest, produtos)
    end.

(** DELETE /admin/produtos/:id *)
Definition admin_remover (authorization : option string) (id : string)
    (produtos : list produto) : admin_resp * list produto :=
  if negb (verificarAuth authorization) then (AdminUnauthorized, produtos)
  else (AdminRemoved id, removerProduto id produtos).

(* ------------------------------------------------------------------ *)
(** ** src/routes.ts: GET /api/payments/status-pagamento/:paymentId (599-693) *)

(** A [pedido_itens] row joined with its product. *)
Record pedido_item := {
  it_produto_id : string;
  it_produto_name : string;
  it_download_url : option string
}.

(** The [pedidos] row found by [.eq("payment_id", paymentId).single()]. *)
Record pedido := {
  pd_status : string;
  pd_itens : list pedido_item
}.

Record download_info := {
  di_produto_id : string;
  di_produto_nome : string;
  di_download_url : string
}.

Inductive routes_status_resp :=
| RsBadRequest                                  (* 400 "ID de pagamento ausente." *)
| RsNotConfigured                               (* 500 "Serviços não configurados." *)
| RsError (details : string)                    (* 500 from the catch *)
| RsOk (status : string) (downloads : list download_info).

(** [filter((item) => item.produto.download_url).map(...)] *)
Definition downloads_of (itens : list pedido_item) : list download_info :=
  flat_map (fun it => match truthy_str (it_download_url it) with
                      | Some u => [{| di_produto_id := it_produto_id it;
                                      di_produto_nome := it_produto_name it;
                                      di_download_url := u |}]
                      | None => []
                      end) itens.

(** The handler; [configured] is [client && supabase], [pd] the row read
    from [pedidos] ([None] when [.single()] finds none). The second
    component lists the [pedidos] status updates issued (lines 641-646). *)
Definition routes_status_pagamento (paymentId : string) (configured : bool)
    (gw : gw_result) (pd : option pedido) : routes_status_resp * list string :=
  if String.eqb paymentId "" then (RsBadRequest, [])
  else if negb configured then (RsNotConfigured, [])
  else
    match gw with
    | GwErr msg => (RsError msg, [])
    | GwOk p =>
        let approved := String.eqb (g_status p) "approved" in
        let updates :=
          match pd with
          | Some d => if (approved && negb (String.eqb (pd_status d) "approved"))%bool
                      then ["approved"] else []
          | None => []
          end in
        (RsOk (g_status p)
              (match pd with
               | Some d => if approved then downloads_of (pd_itens d) else []
               | None => []
               end),
         updates)
    end.

(** Sum of the waits of a [retryWithBackoff] trace. *)
Fixpoint total_sleep (tr : list Retry.event) : Z :=
  match tr with
  | [] => 0
  | Retry.Sleep ms :: tr' => ms + total_sleep tr'
  | Retry.Invoke _ :: tr' => total_sleep tr'
  end.

(** Cart entries by outcome in [process_cart]. *)

(** An entry resolves when it has an id found in the catalog. *)
Definition resolves (catalogo : list produto) (item : cart_item) : bool :=
  match item_id item with
  | Some iid => match find_produto catalogo iid with Some _ => true | None => false end
  | None => false
  end.

Definition has_id (item : cart_item) : bool :=
  match item_id item with Some _ => true | None => false end.

(* ------------------------------------------------------------------ *)
(** ** Concrete data *)

(** Concrete data used by witnesses and counterexamples. *)

(** The binary64 value of the literal [49.90]. *)
Definition preco_49_90 : Q := 7022800668930867 # 140737488355328.

Definition qr_exemplo : qr_data :=
  {| qr_code_base64 := "iVBOR"; qr_code := "00020126"; ticket_url := "https://mp/t/1" |}.

Definition gw_pagamento (id st : string) (amount : Q) : gw_payment :=
  {| g_id := id; g_status := st; g_status_detail := "pending_waiting_transfer";
     g_transaction_amount := amount; g_transaction_data := qr_exemplo |}.

Definition catalogo_exemplo : list produto :=
  [ {| p_id := "p1"; p_nome := "Book"; p_preco := preco_49_90;
       p_linkDownload := "https://seusite.com/downloads/book.pdf" |} ].

Definition registro_exemplo (st : string) (criado : Z) (lks : list string) : registro :=
  {| status := st; statusDetail := "accredited"; links := lks; criadoEm := criado;
     paymentId := "pay123"; customerEmail := "a@b.com"; customerName := Some "Ana";
     total := VNum preco_49_90; totalCentavos := NFin 4990; products := [];
     createdAt := "2026-10-17T10:00:00.000Z"; carrinhoOriginal := None;
     externalReference := Some criado; qrData := Some qr_exemplo; updatedAt := None |}.

Definition loja_exemplo (r : registro) : gmap string registro := {[ "pay123" := r ]}.

Definition carrinho_misto : list cart_item :=
  [CartStr "p1"; CartObj None (Some "zz-typo") (Some "Typo") None (Some 2)].

(** The bytes of U+00A0 (no-break space) in UTF-8. *)
Definition nbsp : string := String (ascii_of_nat 194) (String (ascii_of_nat 160) EmptyString).

Definition falha_duas_vezes (i : nat) : Retry.outcome string string :=
  match i with
  | 0%nat => Retry.Err "fetch failed"
  | 1%nat => Retry.Err "Timeout"
  | _ => Retry.Ok "rows"
  end.

(* ------------------------------------------------------------------ *)
(** ** Helper lemmas *)

Lemma valid_total_checks (v : valor) (q : Q) :
  to_number v = Some q -> (0 < q)%Q -> (isNaN v || le_zero v)%bool = false.
Proof.
  intros Hn Hq. unfold to_number in Hn. unfold isNaN, le_zero.
  destruct (to_num v); try discriminate. injection Hn as ->. simpl.
  destruct (Qle_bool q 0) eqn:E; [|reflexivity].
  apply Qle_bool_iff in E. exfalso. apply (Qlt_not_le _ _ Hq E).
Qed.

(** Once validation has passed, the handler either fails with the gateway's
    message and leaves the store alone, or stores the new record. *)
Lemma criar_pagamento_after_validation catalogo itens nomeCliente email nm em t
    gw_create agora iso pagamentos :
  itens <> [] -> truthy_str nomeCliente = Some nm -> truthy_str email = Some em ->
  (isNaN (valor_total t) || le_zero (valor_total t))%bool = false ->
  criar_pagamento catalogo (Some itens) nomeCliente email t gw_create agora iso pagamentos =
  match gw_create {| transaction_amount := valor_total t; payer_email := em;
                     payer_first_name := nm |} with
  | GwErr msg => (CreateServerError "Erro ao criar pagamento" msg, pagamentos)
  | GwOk p =>
      match process_cart catalogo itens with
      | None => (CreateServerError "Erro ao criar pagamento" erro_item_null, pagamentos)
      | Some (links, encontrados) =>
          (CreateOk (g_id p) (g_status p) (g_transaction_data p)
                    (List.length links) (List.length encontrados),
           <[g_id p := novo_registro p links encontrados itens em nm
                                     (valor_total t) agora iso]> pagamentos)
      end
  end.
Proof.
  intros Hne Hn He Hv. unfold criar_pagamento.
  destruct itens as [|i0 itens]; [congruence|].
  rewrite Hn, He. cbv zeta. rewrite Hv. reflexivity.
Qed.

Lemma process_item_app catalogo item lks enc :
  item <> CartNull ->
  process_item catalogo item (lks, enc)
  = Some (lks ++ item_links catalogo item, enc ++ item_entries catalogo item).
Proof.
  intros Hnn. unfold item_links, item_entries, process_item.
  destruct (item_fields item) as [[[[iid|] nm] qt]|] eqn:Ef; simpl.
  - destruct (find_produto catalogo iid); simpl; by rewrite ?app_nil_r.
  - by rewrite !app_nil_r.
  - destruct item as [[pr|] id name nome qq|str|]; simpl in Ef;
      repeat destruct (truthy_str _); congruence.
Qed.


Lemma item_id_fields item iid :
  item_id item = Some iid -> exists nm qt, item_fields item = Some (Some iid, nm, qt).
Proof.
  unfold item_id. destruct (item_fields item) as [[[i nm] qt]|]; simpl; intros H;
    [subst; eauto | discriminate].
Qed.

(** A cart without [null] entries is processed entry by entry. *)
Lemma process_cart_flat_map catalogo itens :
  ~ In CartNull itens ->
  process_cart catalogo itens
  = Some (flat_map (item_links catalogo) itens, flat_map (item_entries catalogo) itens).
Proof.
  unfold process_cart. intros Hnn.
  enough (H : forall lks enc,
    fold_left (fun acc item => match acc with
                               | Some a => process_item catalogo item a
                               | None => None
                               end) itens (Some (lks, enc))
    = Some (lks ++ flat_map (item_links catalogo) itens,
            enc ++ flat_map (item_entries catalogo) itens)) by apply H.
  induction itens as [|it itens IH]; intros lks enc; cbn [fold_left flat_map].
  - by rewrite !app_nil_r.
  - rewrite process_item_app by (intros ->; apply Hnn; left; reflexivity).
    rewrite IH by (intros Hin; apply Hnn; right; exact Hin). by rewrite !app_assoc.
Qed.


(* ------------------------------------------------------------------ *)
(** ** C1: the stored record of a created payment *)




(* ------------------------------------------------------------------ *)
(** ** C2: gateway failure *)

(** C2. When validation passes and the create-payment call throws with
    message [msg], the handler answers with the 500 "Erro ao criar
    pagamento" error carrying [msg] as [detalhes], and the store is
    returned unchanged. *)
Theorem criar_pagamento_gateway_error_store_unchanged
    (catalogo : list produto) (itens : list cart_item)
    (nomeCliente email : option string) (nm em : string) (t : jsval) (q : Q)
    (gw_create : create_req -> gw_result) (msg : string) (agora : Z) (iso : string)
    (pagamentos : gmap string registro) :
  itens <> [] ->
  truthy_str nomeCliente = Some nm -> truthy_str email = Some em ->
  to_number (valor_total t) = Some q -> (0 < q)%Q ->
  gw_create {| transaction_amount := valor_total t; payer_email := em;
               payer_first_name := nm |} = GwErr msg ->
  criar_pagamento catalogo (Some itens) nomeCliente email t gw_create agora iso pagamentos
  = (CreateServerError "Erro ao criar pagamento" msg, pagamentos).
Proof.
  intros Hne Hn He Hq Hpos Hgw.
  rewrite (criar_pagamento_after_validation _ _ _ _ nm em _ _ _ _ _ Hne Hn He
             (valid_total_checks _ _ Hq Hpos)).
  by rewrite Hgw.
Qed.

Lemma criar_pagamento_gateway_error_store_unchanged_witness :
  to_number (valor_total (JNum 10)) = Some 10%Q /\
  criar_pagamento catalogo_exemplo (Some [CartStr "p1"]) (Some "Ana") (Some "a@b.com")
    (JNum 10) (fun _ => GwErr "invalid access token") 1000 "2026-10-17T10:00:00.000Z"
    {[ "old" := registro_exemplo "approved" 0 [] ]}
  = (CreateServerError "Erro ao criar pagamento" "invalid access token",
     {[ "old" := registro_exemplo "approved" 0 [] ]}).
Proof.
  split; [reflexivity|].
  apply (criar_pagamento_gateway_error_store_unchanged catalogo_exemplo [CartStr "p1"]
           (Some "Ana") (Some "a@b.com") "Ana" "a@b.com" (JNum 10) 10
           (fun _ => GwErr "invalid access token") "invalid access token" 1000
           "2026-10-17T10:00:00.000Z" {[ "old" := registro_exemplo "approved" 0 [] ]}).
  - discriminate.
  - reflexivity.
  - reflexivity.
  - reflexivity.
  - reflexivity.
  - reflexivity.
Defined.

(* ------------------------------------------------------------------ *)
(** ** C3: download gating for a known record *)

(** C3. For a payment id whose record [r] is in the store, [link_download]
    fails with the not-approved error carrying [r]'s status exactly when the
    status is not "approved"; otherwise it fails with the expired error
    exactly when [agora - criadoEm r] exceeds the 24-hour window; otherwise
    with the no-links error exactly when [links r] is empty; otherwise it
    returns the links, the products, the customer name and the total. *)
Theorem link_download_known_record_gating
    (id : string) (gw_get : string -> gw_result) (agora : Z)
    (pagamentos : gmap string registro) (r : registro) :
  pagamentos !! id = Some r ->
  (link_download id gw_get agora pagamentos = DlNotApproved (status r) (statusDetail r)
     <-> status r <> "approved") /\
  (status r = "approved" ->
     (link_download id gw_get agora pagamentos = DlExpired
        <-> tempoExpiracao < agora - criadoEm r)) /\
  (status r = "approved" -> agora - criadoEm r <= tempoExpiracao ->
     (link_download id gw_get agora pagamentos = DlNoLinks <-> links r = [])) /\
  (status r = "approved" -> agora - criadoEm r <= tempoExpiracao -> links r <> [] ->
     link_download id gw_get agora pagamentos
     = DlOk (links r) (products r) (customerName r) (total r)).
Proof.
  intros Hr. unfold link_download. rewrite Hr.
  destruct (String.eqb_spec (status r) "approved") as [Ha|Ha]; simpl;
    [destruct (Z.ltb_spec tempoExpiracao (agora - criadoEm r)) as [Hl|Hl];
       [| destruct (links r) as [|l0 ls] eqn:El] |];
    repeat (split || intros); try discriminate; try congruence; try lia; tauto.
Qed.

Lemma link_download_known_record_gating_witness :
  (loja_exemplo (registro_exemplo "approved" 0 ["https://x/book.pdf"]))
    !! "pay123" = Some (registro_exemplo "approved" 0 ["https://x/book.pdf"]) /\
  link_download "pay123" (fun _ => GwErr "unused") (tempoExpiracao + 1000)
    (loja_exemplo (registro_exemplo "approved" 0 ["https://x/book.pdf"])) = DlExpired /\
  link_download "pay123" (fun _ => GwErr "unused") (tempoExpiracao - 1000)
    (loja_exemplo (registro_exemplo "approved" 0 ["https://x/book.pdf"]))
  = DlOk ["https://x/book.pdf"] [] (Some "Ana") (VNum preco_49_90).
Proof.
  split; [reflexivity|].
  split.
  - apply (link_download_known_record_gating "pay123" (fun _ => GwErr "unused")
             (tempoExpiracao + 1000)
             (loja_exemplo (registro_exemplo "approved" 0 ["https://x/book.pdf"]))
             (registro_exemplo "approved" 0 ["https://x/book.pdf"])); [reflexivity | reflexivity | ].
    vm_compute. reflexivity.
  - apply (link_download_known_record_gating "pay123" (fun _ => GwErr "unused")
             (tempoExpiracao - 1000)
             (loja_exemplo (registro_exemplo "approved" 0 ["https://x/book.pdf"]))
             (registro_exemplo "approved" 0 ["https://x/book.pdf"])); try reflexivity.
    + vm_compute. discriminate.
    + discriminate.
Defined.

(* ------------------------------------------------------------------ *)
(** ** C4: status polling of a known record *)

(** C4 (amended). For a payment id whose record [r] is in the store: with a
    terminal status the handler answers with the view of [r], issues no
    gateway query and leaves the store unchanged; with status "pending" or
    "in_process" it queries the gateway once, and if the gateway answers
    with [p] it overwrites status and status detail with [p]'s, sets
    [updatedAt], stores that record and answers with its view, while if the
    query throws it leaves the store unchanged and answers with the view of
    the cached record. *)
Theorem status_pagamento_known_record
    (id : string) (gw_get : string -> gw_result) (agora : Z) (iso : string)
    (pagamentos : gmap string registro) (r : registro) :
  pagamentos !! id = Some r ->
  (terminal (status r) ->
     status_pagamento id gw_get agora iso pagamentos
     = (StatusOk (view id r iso), pagamentos, [])) /\
  (status r = "pending" \/ status r = "in_process" ->
     (forall p, gw_get id = GwOk p ->
        let r' := set_status r (g_status p) (g_status_detail p) iso in
        status_pagamento id gw_get agora iso pagamentos
        = (StatusOk (view id r' iso), <[id := r']> pagamentos, [id])) /\
     (forall msg, gw_get id = GwErr msg ->
        status_pagamento id gw_get agora iso pagamentos
        = (StatusOk (view id r iso), pagamentos, [id]))).
Proof.
  intros Hr. unfold status_pagamento. rewrite Hr. split.
  - intros [H|[H|H]]; rewrite H; reflexivity.
  - intros Hp.
    assert (Hb : (String.eqb (status r) "pending" || String.eqb (status r) "in_process")%bool
                 = true) by (destruct Hp as [H|H]; rewrite H; reflexivity).
    rewrite Hb. split.
    + intros p Hg. cbv zeta. rewrite Hg. reflexivity.
    + intros msg Hg. rewrite Hg. reflexivity.
Qed.

Lemma status_pagamento_known_record_witness :
  loja_exemplo (registro_exemplo "pending" 0 []) !! "pay123"
    = Some (registro_exemplo "pending" 0 []) /\
  status_pagamento "pay123" (fun _ => GwOk (gw_pagamento "pay123" "approved" 10)) 5000 "t1"
    (loja_exemplo (registro_exemplo "pending" 0 []))
  = (StatusOk (view "pay123" (set_status (registro_exemplo "pending" 0 [])
                                "approved" "pending_waiting_transfer" "t1") "t1"),
     <["pay123" := set_status (registro_exemplo "pending" 0 [])
                     "approved" "pending_waiting_transfer" "t1"]>
       (loja_exemplo (registro_exemplo "pending" 0 [])), ["pay123"]).
Proof.
  split; [reflexivity|].
  destruct (status_pagamento_known_record "pay123"
           (fun _ => GwOk (gw_pagamento "pay123" "approved" 10)) 5000 "t1"
           (loja_exemplo (registro_exemplo "pending" 0 []))
           (registro_exemplo "pending" 0 []) eq_refl) as [_ H].
  exact (proj1 (H (or_introl eq_refl)) (gw_pagamento "pay123" "approved" 10) eq_refl).
Defined.

(** C4 counterexample: a "pending" record whose gateway query throws is
    neither overwritten nor given a refreshed [updatedAt]. *)
Lemma status_pagamento_gateway_error_no_refresh :
  let '(_, st, calls) :=
    status_pagamento "pay123" (fun _ => GwErr "timeout") 5000 "t1"
      (loja_exemplo (registro_exemplo "pending" 0 [])) in
  calls = ["pay123"] /\
  st !! "pay123" = Some (registro_exemplo "pending" 0 []) /\
  updatedAt (registro_exemplo "pending" 0 []) = None.
Proof.
  simpl. split; [reflexivity|]. split; reflexivity.
Qed.

(* ------------------------------------------------------------------ *)
(** ** C5: frame of the webhook's status update *)

(** C5. [updateStatus] leaves the store unchanged when the id is absent;
    when it is present, every other id keeps its record and the updated
    record differs from the old one only in [status], [statusDetail] and
    [updatedAt]. *)
Theorem updateStatus_frame (pagamentos : gmap string registro)
    (id st detail iso : string) :
  (pagamentos !! id = None -> updateStatus id st detail iso pagamentos = pagamentos) /\
  (forall r, pagamentos !! id = Some r ->
     (forall j, j <> id -> updateStatus id st detail iso pagamentos !! j = pagamentos !! j) /\
     exists r', updateStatus id st detail iso pagamentos !! id = Some r' /\
       status r' = st /\ statusDetail r' = detail /\ updatedAt r' = Some iso /\
       links r' = links r /\ criadoEm r' = criadoEm r /\ paymentId r' = paymentId r /\
       customerEmail r' = customerEmail r /\ customerName r' = customerName r /\
       total r' = total r /\ totalCentavos r' = totalCentavos r /\
       products r' = products r /\ createdAt r' = createdAt r /\
       carrinhoOriginal r' = carrinhoOriginal r /\
       externalReference r' = externalReference r /\ qrData r' = qrData r).
Proof.
  unfold updateStatus. split.
  - intros H. by rewrite H.
  - intros r H. rewrite H. split.
    + intros j Hj. by rewrite lookup_insert_ne.
    + eexists. rewrite lookup_insert_eq. split; [reflexivity|].
      repeat split.
Qed.

(* ------------------------------------------------------------------ *)
(** ** C6: the sweep *)

(** C6. After one pass of the sweep with age limit [limite] at time [agora],
    an id keeps its record, unchanged, exactly when the record's age
    [agora - criadoEm] is at most [limite]; records older than [limite] are
    gone, and no record is created. (The scheduled pass, [limpeza], is the
    instance [limite = umaHora].) *)
Theorem remover_antigos_lookup (limite agora : Z) (pagamentos : gmap string registro)
    (id : string) :
  remover_antigos limite agora pagamentos !! id =
  match pagamentos !! id with
  | Some r => if limite <? agora - criadoEm r then None else Some r
  | None => None
  end.
Proof.
  unfold remover_antigos. rewrite map_lookup_filter.
  destruct (pagamentos !! id) as [r|]; simpl; [|reflexivity].
  destruct (Z.ltb_spec limite (agora - criadoEm r)) as [H|H];
    case_guard as Hg; simpl; try reflexivity; exfalso; simpl in Hg; lia.
Qed.

(** The "two ages" instance: of records aged [limite - 1] and [limite + 1],
    only the second is removed. *)
Example remover_antigos_two_ages :
  let st : gmap string registro :=
    <["young" := registro_exemplo "pending" (5000000 - (umaHora - 1)) []]>
      {[ "old" := registro_exemplo "pending" (5000000 - (umaHora + 1)) [] ]} in
  remover_antigos umaHora 5000000 st !! "young" = st !! "young" /\
  remover_antigos umaHora 5000000 st !! "old" = None.
Proof.
  split; vm_compute; reflexivity.
Qed.

(* ------------------------------------------------------------------ *)
(** ** C7: parsing and validation of the declared total *)

Lemma parseFloat_number (s : string) :
  (exists q, parseFloat s = VNum q) \/ (exists neg, parseFloat s = VInf neg) \/
  parseFloat s = VNaN.
Proof.
  unfold parseFloat.
  repeat match goal with
         | |- context [match ?x with (_, _) => _ end] => destruct x
         end.
  destruct (String.prefix _ _); [eauto|].
  repeat match goal with
         | |- context [match ?x with (_, _) => _ end] => destruct x
         end.
  destruct (Nat.eqb _ 0); [eauto|].
  destruct (round64 _); simpl; eauto.
Qed.

Lemma validation_fails_iff (v : valor) :
  (exists q, v = VNum q) \/ (exists neg, v = VInf neg) \/ v = VNaN ->
  ((isNaN v || le_zero v)%bool = true <-> ~ positive_number v).
Proof.
  intros [[q ->]|[[neg ->]| ->]]; unfold positive_number, isNaN, le_zero; simpl.
  - split.
    + intros Hle [[q' [Hq' Hlt]]|Hi]; [|discriminate]. injection Hq' as <-.
      apply Qle_bool_iff in Hle. exact (Qlt_not_le _ _ Hlt Hle).
    + intros Hn. apply Qle_bool_iff. apply Qnot_lt_le. intros Hlt. eauto.
  - destruct neg; split.
    + intros _ [[q' [Hq' _]]|Hi]; discriminate.
    + reflexivity.
    + discriminate.
    + intros Hn. exfalso. apply Hn. right. reflexivity.
  - split; [intros _ [[q' [Hq' _]]|Hi]; discriminate | reflexivity].
Qed.

(** C7 (a defect of src/routes.ts). In POST /api/payments/criar-pagamento
    the [total] transform throws for a number or a string whose value (by
    [parseFloat], with no normalisation of "R$", "." or ",") is not a
    positive number; [safeParse] does not catch it, and the handler's
    [catch] answers 500 "Erro interno do servidor" with the transform's
    message, not the 400 "Dados inválidos" validation answer, which only a
    total that is neither a number nor a string gets. A positive total is
    passed on as it is. *)
Theorem routes_validacao_total :
  (forall s, routes_validacao (JStr s)
             = RcServerError "Erro interno do servidor" "Total deve ser um número maior que zero"
             <-> ~ positive_number (parseFloat s)) /\
  (forall s, positive_number (parseFloat s) ->
             routes_validacao (JStr s) = RcValidated (parseFloat s)) /\
  (forall q, routes_validacao (JNum q)
             = RcServerError "Erro interno do servidor" "Total deve ser um número maior que zero"
             <-> ~ (0 < q)%Q) /\
  (forall q, (0 < q)%Q -> routes_validacao (JNum q) = RcValidated (VNum q)) /\
  (forall t, (forall s, t <> JStr s) -> (forall q, t <> JNum q) ->
             routes_validacao t = RcBadRequest "Dados inválidos").
Proof.
  assert (Hcatch : routes_catch "Total deve ser um número maior que zero"
                   = RcServerError "Erro interno do servidor"
                       "Total deve ser um número maior que zero") by reflexivity.
  assert (Hv : forall v, (exists q, v = VNum q) \/ (exists neg, v = VInf neg) \/ v = VNaN ->
            (routes_catch_or v = RcServerError "Erro interno do servidor"
                                 "Total deve ser um número maior que zero"
             <-> ~ positive_number v) /\
            (positive_number v -> routes_catch_or v = RcValidated v)).
  { intros v Hn. pose proof (validation_fails_iff v Hn) as Hiff.
    unfold routes_catch_or, total_transform.
    destruct (isNaN v || le_zero v)%bool eqn:E.
    - rewrite Hcatch. split; [split; [intros _; apply Hiff; reflexivity | reflexivity]|].
      intros Hp. exfalso. apply Hiff in Hp; [exact Hp | reflexivity].
    - split; [split; [discriminate|] | reflexivity].
      intros Hnp. apply Hiff in Hnp. discriminate. }
  split; [|split; [|split; [|split]]].
  - intros s. exact (proj1 (Hv _ (parseFloat_number s))).
  - intros s. exact (proj2 (Hv _ (parseFloat_number s))).
  - intros q. rewrite (proj1 (Hv (VNum q) (or_introl (ex_intro _ q eq_refl)))).
    unfold positive_number. split.
    + intros Hn Hq. apply Hn. left. eauto.
    + intros Hn [[q' [Hq' Hlt]]|Hi]; [injection Hq' as <-; exact (Hn Hlt) | discriminate].
  - intros q Hq. apply (proj2 (Hv (VNum q) (or_introl (ex_intro _ q eq_refl)))).
    left. eauto.
  - intros [q|s|b| |] Hs Hq; try reflexivity; [destruct (Hq q) | destruct (Hs s)]; reflexivity.
Qed.

(** The input of the defect: a body whose total is the string "0". *)
Lemma routes_validacao_total_witness :
  routes_validacao (JStr "0")
  = RcServerError "Erro interno do servidor" "Total deve ser um número maior que zero".
Proof.
  apply (proj2 (proj1 routes_validacao_total "0")).
  unfold positive_number. vm_compute. intros [[q [Hq Hlt]]|Hi]; [|discriminate].
  injection Hq as <-. discriminate Hlt.
Defined.

(* ------------------------------------------------------------------ *)
(** ** C8: partial resolution of the cart *)




(* ------------------------------------------------------------------ *)
(** ** C9: [retryWithBackoff] *)

Section RetryProofs.

Import Retry.

Context {T E : Type}.
Variable fn : nat -> outcome T E.
Variables maxRetries delay : Z.

Lemma schedule_step (i k : nat) :
  (i < k)%nat ->
  schedule delay i k = Invoke i :: Sleep (delay * (Z.of_nat i + 1)) :: schedule delay (S i) k.
Proof.
  intros H. unfold schedule.
  replace (k - i)%nat with (S (k - S i)) by lia. reflexivity.
Qed.

Lemma schedule_refl (i : nat) : schedule delay i i = [Invoke i].
Proof. unfold schedule. by rewrite Nat.sub_diag. Qed.

Lemma loop_returns (fuel i k : nat) (v : T) :
  (i <= k < i + fuel)%nat -> Z.of_nat (i + fuel) = maxRetries ->
  (forall j, (i <= j < k)%nat -> is_err (fn j)) -> fn k = Ok v ->
  loop fn maxRetries delay i fuel = (schedule delay i k, Returned v).
Proof.
  revert i. induction fuel as [|fuel IH]; intros i Hk Hmax Herr Hok; [lia|].
  simpl. destruct (Nat.eq_dec i k) as [->|Hne].
  - rewrite Hok. by rewrite schedule_refl.
  - assert (Hi : is_err (fn i)) by (apply Herr; lia).
    destruct (fn i) as [v'|e] eqn:Efn; [destruct Hi|].
    destruct (Z.eqb_spec (Z.of_nat i) (maxRetries - 1)) as [Heq|_]; [lia|].
    rewrite (IH (S i)); [| lia | lia | intros j Hj; apply Herr; lia | exact Hok].
    rewrite (schedule_step i k); [reflexivity | lia].
Qed.

Lemma loop_throws (fuel i : nat) (e : E) :
  (1 <= fuel)%nat -> Z.of_nat (i + fuel) = maxRetries ->
  (forall j, (i <= j < i + fuel - 1)%nat -> is_err (fn j)) -> fn (i + fuel - 1)%nat = Err e ->
  loop fn maxRetries delay i fuel = (schedule delay i (i + fuel - 1), Thrown e).
Proof.
  revert i. induction fuel as [|fuel IH]; intros i Hf Hmax Herr Hlast; [lia|].
  simpl. destruct (Nat.eq_dec fuel 0%nat) as [->|Hne].
  - replace (i + 1 - 1)%nat with i in Hlast |- * by lia.
    rewrite Hlast. destruct (Z.eqb_spec (Z.of_nat i) (maxRetries - 1)) as [_|H]; [|lia].
    by rewrite schedule_refl.
  - assert (Hi : is_err (fn i)) by (apply Herr; lia).
    destruct (fn i) as [v'|e'] eqn:Efn; [destruct Hi|].
    destruct (Z.eqb_spec (Z.of_nat i) (maxRetries - 1)) as [Heq|_]; [lia|].
    rewrite (IH (S i)); [| lia | lia | intros j Hj; apply Herr; lia
                        | replace (S i + fuel - 1)%nat with (i + S fuel - 1)%nat by lia;
                          exact Hlast].
    replace (S i + fuel - 1)%nat with (i + S fuel - 1)%nat by lia.
    rewrite (schedule_step i (i + S fuel - 1)); [reflexivity | lia].
Qed.

Lemma loop_invocations (fuel i : nat) :
  (invocations (loop fn maxRetries delay i fuel).1 <= fuel)%nat.
Proof.
  revert i. induction fuel as [|fuel IH]; intros i; simpl; [lia|].
  destruct (fn i); simpl; [lia|].
  destruct (Z.of_nat i =? maxRetries - 1); simpl; [lia|].
  specialize (IH (S i)). destruct (loop fn maxRetries delay (S i) fuel). simpl in *. lia.
Qed.

End RetryProofs.

(** C9. For [maxRetries >= 1]: if attempt [k] (counting from 0, with
    [k < maxRetries]) is the first to succeed, with value [v], the helper
    returns [v] after exactly the calls [0..k], each failed call [j] being
    followed by a wait of [delay * (j + 1)] (linear backoff) and no call
    after [k]; if all [maxRetries] calls fail, the error [e] of the last one
    is thrown unchanged after the same schedule; and in every case [fn] is
    called at most [maxRetries] times. *)
Theorem retryWithBackoff_spec {T E : Type} (fn : nat -> Retry.outcome T E)
    (maxRetries delay : Z) :
  1 <= maxRetries ->
  (forall (k : nat) (v : T), Z.of_nat k < maxRetries ->
     (forall j, (j < k)%nat -> Retry.is_err (fn j)) -> fn k = Retry.Ok v ->
     Retry.retryWithBackoff fn maxRetries delay
     = (Retry.schedule delay 0 k, Retry.Returned v)) /\
  (forall e : E, (forall j, Z.of_nat j < maxRetries - 1 -> Retry.is_err (fn j)) ->
     fn (Z.to_nat (maxRetries - 1)) = Retry.Err e ->
     Retry.retryWithBackoff fn maxRetries delay
     = (Retry.schedule delay 0 (Z.to_nat (maxRetries - 1)), Retry.Thrown e)) /\
  Z.of_nat (Retry.invocations (Retry.retryWithBackoff fn maxRetries delay).1) <= maxRetries.
Proof.
  intros Hm. unfold Retry.retryWithBackoff. split; [|split].
  - intros k v Hk Herr Hok.
    apply loop_returns; [lia | lia | intros j Hj; apply Herr; lia | exact Hok].
  - intros e Herr Hlast.
    replace (Z.to_nat (maxRetries - 1)) with (0 + Z.to_nat maxRetries - 1)%nat by lia.
    apply loop_throws; [lia | lia | intros j Hj; apply Herr; lia |].
    replace (0 + Z.to_nat maxRetries - 1)%nat with (Z.to_nat (maxRetries - 1)) by lia.
    exact Hlast.
  - pose proof (loop_invocations fn maxRetries delay (Z.to_nat maxRetries) 0). lia.
Qed.

Lemma retryWithBackoff_spec_witness :
  1 <= 3 /\
  Retry.retryWithBackoff falha_duas_vezes 3 500
  = (Retry.schedule 500 0%nat 2%nat, Retry.Returned "rows") /\
  Retry.schedule 500 0%nat 2%nat
  = [Retry.Invoke 0%nat; Retry.Sleep 500; Retry.Invoke 1%nat; Retry.Sleep 1000; Retry.Invoke 2%nat].
Proof.
  split; [lia|]. split; [|reflexivity].
  apply (proj1 (retryWithBackoff_spec falha_duas_vezes 3 500 ltac:(lia)) 2%nat "rows").
  - lia.
  - intros j Hj. destruct j as [|[|j]]; simpl; auto; lia.
  - reflexivity.
Defined.

(* ------------------------------------------------------------------ *)
(** ** C10: the sweep and the 24-hour download window *)

Lemma sem_links_insert_ne id j r (pagamentos : gmap string registro) :
  j <> id -> sem_links id pagamentos -> sem_links id (<[j := r]> pagamentos).
Proof. intros Hne H. unfold sem_links. by rewrite lookup_insert_ne. Qed.

Lemma sem_links_exec id a pagamentos :
  nao_cria id a -> sem_links id pagamentos -> sem_links id (exec a pagamentos).
Proof.
  intros Hnc H. destruct a as [cat car nc em t gwc agora iso | ty did gw iso
                              | j gw agora iso | j gw agora | agora]; simpl.
  - unfold criar_pagamento. simpl in Hnc.
    destruct car as [[|i0 itens]|]; simpl; try exact H.
    destruct (truthy_str nc) as [nm|], (truthy_str em) as [mail|]; simpl; try exact H.
    destruct (isNaN (valor_total t) || le_zero (valor_total t))%bool; simpl; [exact H|].
    destruct (gwc _) as [p|msg] eqn:Eg; simpl; [|exact H].
    destruct (process_cart cat (i0 :: itens)) as [[lks enc]|]; simpl; [|exact H].
    apply sem_links_insert_ne; [exact (Hnc _ _ Eg) | exact H].
  - destruct ty as [ty|], (truthy_str did) as [pid|]; simpl; try exact H.
    destruct (String.eqb ty "payment"); [|exact H].
    destruct gw as [p|msg]; simpl; [|exact H].
    unfold updateStatus. destruct (pagamentos !! pid) as [r|] eqn:Er; [|exact H].
    unfold sem_links in *. destruct (String.eq_dec pid id) as [->|Hne].
    + rewrite lookup_insert_eq. rewrite Er in H. exact H.
    + by rewrite lookup_insert_ne.
  - unfold status_pagamento.
    destruct (pagamentos !! j) as [r|] eqn:Er.
    + destruct (String.eqb (status r) "pending" || String.eqb (status r) "in_process")%bool;
        [destruct (gw j) as [p|msg]|]; simpl; try exact H.
      unfold sem_links in *. destruct (String.eq_dec j id) as [->|Hne].
      * rewrite lookup_insert_eq. rewrite Er in H. exact H.
      * by rewrite lookup_insert_ne.
    + destruct (gw j) as [p|msg]; simpl; [|exact H].
      unfold sem_links in *. destruct (String.eq_dec j id) as [->|Hne].
      * by rewrite lookup_insert_eq.
      * by rewrite lookup_insert_ne.
  - exact H.
  - unfold sem_links in *. unfold limpeza, remover_antigos. rewrite map_lookup_filter.
    destruct (pagamentos !! id) as [r|]; simpl; [|exact I].
    case_guard; simpl; [exact H | exact I].
Qed.

Lemma sem_links_exec_all id acoes pagamentos :
  Forall (nao_cria id) acoes -> sem_links id pagamentos ->
  sem_links id (exec_all acoes pagamentos).
Proof.
  revert pagamentos. induction acoes as [|a acoes IH]; intros pagamentos Hf H; simpl.
  - exact H.
  - inversion Hf as [|a' acoes' Ha Hrest]; subst.
    apply IH; [exact Hrest|]. by apply sem_links_exec.
Qed.

Lemma sem_links_no_download id gw agora pagamentos lks prods nm tot :
  sem_links id pagamentos -> link_download id gw agora pagamentos <> DlOk lks prods nm tot.
Proof.
  unfold sem_links, link_download. destruct (pagamentos !! id) as [r|].
  - intros Hl. destruct (negb (String.eqb (status r) "approved")); [discriminate|].
    destruct (tempoExpiracao <? agora - criadoEm r); [discriminate|].
    rewrite Hl. discriminate.
  - intros _. destruct (gw id) as [p|]; [destruct (String.eqb (g_status p) "approved")|];
      discriminate.
Qed.

(** C10 (amended). Take an approved record with download links, stored
    under an id that is not a name of [Object.prototype], whose age at
    [agora0] is above [umaHora] but within the 24-hour [tempoExpiracao]:
    [link_download] at [agora0] would still return its links, yet the sweep
    at [agora0] deletes it; the next [link_download] for the id takes the
    unknown-record path (gateway query, 403/404, never links); and after any
    further sequence of requests and sweeps in which the gateway assigns the
    id to no new payment, no [link_download] for the id returns links: the
    id is either unknown again, or holds a record re-created by a status
    poll, which has no links, so the known-record path answers 403, 410 or
    404. *)
Theorem limpeza_revokes_download_access
    (id : string) (pagamentos : gmap string registro) (r : registro)
    (agora0 : Z) (gw0 : string -> gw_result) :
  ~ In id prototype_keys ->
  pagamentos !! id = Some r -> status r = "approved" -> links r <> [] ->
  umaHora < agora0 - criadoEm r -> agora0 - criadoEm r <= tempoExpiracao ->
  link_download id gw0 agora0 pagamentos
    = DlOk (links r) (products r) (customerName r) (total r) /\
  limpeza agora0 pagamentos !! id = None /\
  (forall gw agora,
     link_download id gw agora (limpeza agora0 pagamentos)
     = match gw id with
       | GwOk p => if String.eqb (g_status p) "approved"
                   then DlGwNotProcessed (g_status p) else DlGwNotApproved (g_status p)
       | GwErr _ => DlGwNotFound
       end) /\
  (forall acoes gw agora lks prods nm tot,
     Forall (nao_cria id) acoes ->
     link_download id gw agora (exec_all acoes (limpeza agora0 pagamentos))
     <> DlOk lks prods nm tot).
Proof.
  intros _ Hr Ha Hl Hold Hwin.
  assert (Hgone : limpeza agora0 pagamentos !! id = None).
  { unfold limpeza, remover_antigos. rewrite map_lookup_filter, Hr. simpl.
    case_guard as Hg; [simpl in Hg; lia | reflexivity]. }
  split; [|split; [exact Hgone|split]].
  - unfold link_download. rewrite Hr, Ha. simpl.
    destruct (Z.ltb_spec tempoExpiracao (agora0 - criadoEm r)); [lia|].
    destruct (links r); [congruence | reflexivity].
  - intros gw agora. unfold link_download. by rewrite Hgone.
  - intros acoes gw agora lks prods nm tot Hf.
    apply sem_links_no_download, sem_links_exec_all; [exact Hf|].
    unfold sem_links. by rewrite Hgone.
Qed.

Lemma limpeza_revokes_download_access_witness :
  let st := loja_exemplo (registro_exemplo "approved" 0 ["https://x/book.pdf"]) in
  ~ In "pay123" prototype_keys /\
  link_download "pay123" (fun _ => GwErr "unused") (2 * umaHora) st
    = DlOk ["https://x/book.pdf"] [] (Some "Ana") (VNum preco_49_90) /\
  limpeza (2 * umaHora) st !! "pay123" = None.
Proof.
  intros st.
  destruct (limpeza_revokes_download_access "pay123" st
              (registro_exemplo "approved" 0 ["https://x/book.pdf"]) (2 * umaHora)
              (fun _ => GwErr "unused")) as [H1 [H2 _]].
  - cbn [In prototype_keys]. intuition discriminate.
  - reflexivity.
  - reflexivity.
  - discriminate.
  - vm_compute. reflexivity.
  - vm_compute. discriminate.
  - split; [cbn [In prototype_keys]; intuition discriminate|].
    split; [exact H1 | exact H2].
Defined.

(** C10 counterexample: after the sweep, a status poll for the id (with the
    gateway reporting "approved") re-creates a minimal record, so the next
    [link_download] takes the known-record path and fails with the
    no-links error rather than the unknown-record path. *)
Lemma download_after_poll_known_path :
  let st0 := loja_exemplo (registro_exemplo "approved" 0 ["https://x/book.pdf"]) in
  let gw := fun _ : string => GwOk (gw_pagamento "pay123" "approved" preco_49_90) in
  let st := exec_all [ALimpeza (2 * umaHora); AStatus "pay123" gw (2 * umaHora) "t2"] st0 in
  st !! "pay123" <> None /\ link_download "pay123" gw (2 * umaHora + 1000) st = DlNoLinks.
Proof.
  vm_compute. split; [discriminate | reflexivity].
Qed.

(* ------------------------------------------------------------------ *)
(** ** Sanity checks of the embedding on concrete inputs *)

Example parse_brl : valor_total (JStr "R$ 1.234,56") = num_to_valor (round64 (123456 # 100)).
Proof. vm_compute. reflexivity. Qed.

Example parse_plain : valor_total (JStr "49,90") = VNum preco_49_90.
Proof. vm_compute. reflexivity. Qed.

(** The no-break space after "R$" is white space for [parseFloat]. *)
Example parse_nbsp : valor_total (JStr (String.append "R$" (String.append nbsp "49,90")))
                     = VNum preco_49_90.
Proof. vm_compute. reflexivity. Qed.

Example parse_routes : routes_validacao (JStr "49,90") = RcValidated (VNum 49).
Proof. vm_compute. reflexivity. Qed.

Example parse_exp : parseFloat "  -1.5e2xyz" = VNum (-150).
Proof. vm_compute. reflexivity. Qed.

Example parse_nan : parseFloat "R$ 5" = VNaN.
Proof. vm_compute. reflexivity. Qed.

Example parse_infinity :
  parseFloat "Infinity" = VInf false /\ parseFloat " -Infinity!" = VInf true /\
  parseFloat "1e400" = VInf false.
Proof. vm_compute. repeat split. Qed.

Example parse_underflow : parseFloat "1e-400" = VNum 0 /\ parseFloat "5e-324" <> VNum 0.
Proof. vm_compute. split; [reflexivity | discriminate]. Qed.

(** [Math.round(1.005 * 100)] is 100: [1.005 * 100] is 100.49999999999999
    in binary64. *)
Example cents_1_005 : math_round_100 (valor_total (JStr "1,005")) = NFin 100.
Proof. vm_compute. reflexivity. Qed.

Example preco_49_90_binary64 : round64 (4990 # 100) = NFin preco_49_90.
Proof. vm_compute. reflexivity. Qed.

(* ------------------------------------------------------------------ *)
(** ** Further properties of server.js: status polling of unknown ids *)

(** Status poll of an id the store does not know and that is not a name of
    [Object.prototype] (lines 269-300): on a gateway error the answer is
    404 and the store is unchanged; on success a minimal record (gateway
    status, no links, no products, gateway amount as total) is stored under
    the id and returned. The gateway is queried once in both cases. *)
Theorem status_pagamento_unknown_id (id : string) (gw_get : string -> gw_result)
    (agora : Z) (iso : string) (pagamentos : gmap string registro) :
  ~ In id prototype_keys ->
  pagamentos !! id = None ->
  (forall msg, gw_get id = GwErr msg ->
     status_pagamento id gw_get agora iso pagamentos = (StatusNotFound, pagamentos, [id])) /\
  (forall p, gw_get id = GwOk p ->
     exists r, status_pagamento id gw_get agora iso pagamentos
               = (StatusOk (view id r iso), <[id := r]> pagamentos, [id]) /\
       status r = g_status p /\ links r = [] /\ products r = [] /\
       total r = VNum (g_transaction_amount p) /\ criadoEm r = agora /\
       customerName r = None).
Proof.
  intros _ Hn. unfold status_pagamento. rewrite Hn. split.
  - intros msg Hg. by rewrite Hg.
  - intros p Hg. rewrite Hg. eexists. split; [reflexivity|]. repeat split.
Qed.

Lemma status_pagamento_unknown_id_witness :
  ~ In "pay7" prototype_keys /\ (∅ : gmap string registro) !! "pay7" = None /\
  exists r, status_pagamento "pay7"
              (fun _ => GwOk (gw_pagamento "pay7" "approved" preco_49_90)) 5 "t5" ∅
            = (StatusOk (view "pay7" r "t5"), <[ "pay7" := r ]> ∅, ["pay7"]) /\
    status r = g_status (gw_pagamento "pay7" "approved" preco_49_90) /\ links r = [] /\
    products r = [] /\
    total r = VNum (g_transaction_amount (gw_pagamento "pay7" "approved" preco_49_90)) /\
    criadoEm r = 5 /\ customerName r = None.
Proof.
  split; [cbn [In prototype_keys]; intuition discriminate|].
  split; [reflexivity|].
  apply (proj2 (status_pagamento_unknown_id "pay7"
                  (fun _ => GwOk (gw_pagamento "pay7" "approved" preco_49_90)) 5 "t5" ∅
                  ltac:(cbn [In prototype_keys]; intuition discriminate)
                  (lookup_empty "pay7"))).
  reflexivity.
Defined.

(** A poll of an unknown id whose gateway status is terminal caches the
    minimal record: every later poll answers from the cache without a
    gateway query and leaves the store alone, and the download route then
    takes the known-record path with no links, so it never hands out links
    (403 when not approved, 410 after 24 hours, else 404). *)
Theorem status_pagamento_unknown_terminal_cached (id : string)
    (gw_get : string -> gw_result) (p : gw_payment) (agora : Z) (iso : string)
    (pagamentos : gmap string registro) :
  pagamentos !! id = None -> gw_get id = GwOk p -> terminal (g_status p) ->
  let st1 := (status_pagamento id gw_get agora iso pagamentos).1.2 in
  (forall gw' agora' iso',
     status_pagamento id gw' agora' iso' st1
     = (StatusOk (view id (registro_minimo id p agora iso) iso'), st1, [])) /\
  (forall gw' agora',
     link_download id gw' agora' st1
     = if String.eqb (g_status p) "approved"
       then (if tempoExpiracao <? agora' - agora then DlExpired else DlNoLinks)
       else DlNotApproved (g_status p) (g_status_detail p)).
Proof.
  intros Hn Hg Ht st1.
  assert (Hst1 : st1 = <[id := registro_minimo id p agora iso]> pagamentos).
  { subst st1. unfold status_pagamento. by rewrite Hn, Hg. }
  rewrite Hst1. split.
  - intros gw' agora' iso'. unfold status_pagamento. rewrite lookup_insert_eq. simpl.
    destruct Ht as [H|[H|H]]; rewrite H; reflexivity.
  - intros gw' agora'. unfold link_download. rewrite lookup_insert_eq. simpl.
    destruct (String.eqb (g_status p) "approved"); simpl; [|reflexivity].
    destruct (tempoExpiracao <? agora' - agora); reflexivity.
Qed.

Lemma status_pagamento_unknown_terminal_cached_witness :
  let gw := fun _ : string => GwOk (gw_pagamento "pay7" "approved" preco_49_90) in
  let st1 := (status_pagamento "pay7" gw 5 "t5" ∅).1.2 in
  link_download "pay7" gw 1000 st1
  = if String.eqb (g_status (gw_pagamento "pay7" "approved" preco_49_90)) "approved"
    then (if tempoExpiracao <? 1000 - 5 then DlExpired else DlNoLinks)
    else DlNotApproved (g_status (gw_pagamento "pay7" "approved" preco_49_90))
                       (g_status_detail (gw_pagamento "pay7" "approved" preco_49_90)).
Proof.
  intros gw st1.
  apply (proj2 (status_pagamento_unknown_terminal_cached "pay7" gw
                  (gw_pagamento "pay7" "approved" preco_49_90) 5 "t5" ∅
                  (lookup_empty "pay7") eq_refl (or_introl eq_refl))).
Defined.

(* ------------------------------------------------------------------ *)
(** ** Further properties of server.js: status updates and the webhook *)

(** Two status updates of the same id leave what the last one alone would
    have left (last writer wins, with no guard on the transition), and
    updates of different ids commute. *)
Theorem updateStatus_compose (pagamentos : gmap string registro)
    (id1 id2 s1 s2 d1 d2 i1 i2 : string) :
  updateStatus id1 s2 d2 i2 (updateStatus id1 s1 d1 i1 pagamentos)
  = updateStatus id1 s2 d2 i2 pagamentos /\
  (id1 <> id2 ->
     updateStatus id2 s2 d2 i2 (updateStatus id1 s1 d1 i1 pagamentos)
     = updateStatus id1 s1 d1 i1 (updateStatus id2 s2 d2 i2 pagamentos)).
Proof.
  split.
  - unfold updateStatus. destruct (pagamentos !! id1) as [r|] eqn:E.
    + rewrite lookup_insert_eq, insert_insert_eq. reflexivity.
    + by rewrite E.
  - intros Hne. unfold updateStatus.
    destruct (pagamentos !! id1) as [r1|] eqn:E1, (pagamentos !! id2) as [r2|] eqn:E2;
      repeat first [rewrite lookup_insert_ne by congruence | rewrite E1 | rewrite E2];
      try reflexivity.
    by apply insert_insert_ne.
Qed.

(** The webhook always answers "OK", never adds or removes an id, and
    changes the store only for [type = "payment"] with a non-empty
    [data.id] already in the store and a successful gateway query; the
    change is the status update of that one record. *)
Theorem webhook_effect (type_ data_id : option string) (gw : gw_result) (iso : string)
    (pagamentos : gmap string registro) :
  (webhook type_ data_id gw iso pagamentos).1 = "OK" /\
  (forall j, is_Some ((webhook type_ data_id gw iso pagamentos).2 !! j)
             <-> is_Some (pagamentos !! j)) /\
  ((webhook type_ data_id gw iso pagamentos).2 = pagamentos \/
   exists pid p r, type_ = Some "payment" /\ truthy_str data_id = Some pid /\
     gw = GwOk p /\ pagamentos !! pid = Some r /\
     (webhook type_ data_id gw iso pagamentos).2
     = <[pid := set_status r (g_status p) (g_status_detail p) iso]> pagamentos).
Proof.
  unfold webhook. simpl. split; [reflexivity|].
  destruct type_ as [ty|], (truthy_str data_id) as [pid|] eqn:Ed;
    try (split; [tauto | left; reflexivity]).
  destruct (String.eqb_spec ty "payment") as [->|_];
    [|split; [tauto | left; reflexivity]].
  destruct gw as [p|msg]; simpl; [|split; [tauto | left; reflexivity]].
  unfold updateStatus. destruct (pagamentos !! pid) as [r|] eqn:Er;
    [|split; [tauto | left; reflexivity]].
  split.
  - intros j. destruct (String.eq_dec j pid) as [->|Hne].
    + rewrite lookup_insert_eq, Er. split; intros _; eexists; reflexivity.
    + by rewrite lookup_insert_ne.
  - right. exists pid, p, r. repeat split; assumption.
Qed.

(* ------------------------------------------------------------------ *)
(** ** Further properties of server.js: creating a payment *)

(** The three validation failures of lines 59-74 answer 400 with their own
    message, leave the store unchanged, and do not depend on the gateway:
    the equations hold for every [gw_create], so it is never called. *)
Theorem criar_pagamento_validation_errors (catalogo : list produto)
    (carrinho : option (list cart_item)) (nomeCliente email : option string)
    (t : jsval) (agora : Z) (iso : string) (pagamentos : gmap string registro) :
  ((carrinho = None \/ carrinho = Some []) ->
   forall gw_create,
     criar_pagamento catalogo carrinho nomeCliente email t gw_create agora iso pagamentos
     = (CreateBadRequest "Carrinho inválido ou vazio.", pagamentos)) /\
  (forall itens, carrinho = Some itens -> itens <> [] ->
   (truthy_str nomeCliente = None \/ truthy_str email = None) ->
   forall gw_create,
     criar_pagamento catalogo carrinho nomeCliente email t gw_create agora iso pagamentos
     = (CreateBadRequest "Nome e email são obrigatórios.", pagamentos)) /\
  (forall itens nm em, carrinho = Some itens -> itens <> [] ->
   truthy_str nomeCliente = Some nm -> truthy_str email = Some em ->
   (isNaN (valor_total t) || le_zero (valor_total t))%bool = true ->
   forall gw_create,
     criar_pagamento catalogo carrinho nomeCliente email t gw_create agora iso pagamentos
     = (CreateBadRequest "Valor total inválido.", pagamentos)).
Proof.
  unfold criar_pagamento. split; [|split].
  - intros [-> | ->] gw_create; reflexivity.
  - intros itens -> Hne Hbad gw_create. destruct itens as [|i0 itens]; [congruence|].
    destruct Hbad as [H|H]; rewrite H;
      [reflexivity | destruct (truthy_str nomeCliente); reflexivity].
  - intros itens nm em -> Hne Hn He Hv gw_create. destruct itens as [|i0 itens]; [congruence|].
    rewrite Hn, He. cbv zeta. rewrite Hv. reflexivity.
Qed.

Lemma item_links_shape catalogo item :
  item_links catalogo item
  = match item_id item with
    | Some iid => match find_produto catalogo iid with
                  | Some p => [p_linkDownload p]
                  | None => []
                  end
    | None => []
    end.
Proof.
  unfold item_links, item_id, process_item.
  destruct (item_fields item) as [[[[iid|] nm] qt]|]; simpl; try reflexivity.
  destruct (find_produto catalogo iid); reflexivity.
Qed.

Lemma item_entries_length catalogo item :
  length (item_entries catalogo item) = match item_id item with Some _ => 1%nat | None => 0%nat end.
Proof.
  unfold item_entries, item_id, process_item.
  destruct (item_fields item) as [[[[iid|] nm] qt]|]; simpl; try reflexivity.
  destruct (find_produto catalogo iid); reflexivity.
Qed.

(** The counts of a successful creation (lines 186-194) from a cart without
    [null] entries: [linksCount] is the number of cart entries that resolve
    to a catalog product, [productsCount] the number of entries with an id
    (entries without one are skipped), so [linksCount <= productsCount]. *)
Theorem criar_pagamento_counts
    (catalogo : list produto) (itens : list cart_item)
    (nomeCliente email : option string) (nm em : string) (t : jsval) (q : Q)
    (gw_create : create_req -> gw_result) (p : gw_payment) (agora : Z) (iso : string)
    (pagamentos : gmap string registro) :
  itens <> [] ->
  truthy_str nomeCliente = Some nm -> truthy_str email = Some em ->
  to_number (valor_total t) = Some q -> (0 < q)%Q ->
  gw_create {| transaction_amount := valor_total t; payer_email := em;
               payer_first_name := nm |} = GwOk p ->
  ~ In CartNull itens ->
  (criar_pagamento catalogo (Some itens) nomeCliente email t gw_create agora iso
     pagamentos).1
  = CreateOk (g_id p) (g_status p) (g_transaction_data p)
             (length (List.filter (resolves catalogo) itens))
             (length (List.filter has_id itens)) /\
  (length (List.filter (resolves catalogo) itens) <= length (List.filter has_id itens))%nat.
Proof.
  intros Hne Hn He Hq Hpos Hgw Hnn.
  rewrite (criar_pagamento_after_validation _ _ _ _ nm em _ _ _ _ _ Hne Hn He
             (valid_total_checks _ _ Hq Hpos)).
  rewrite Hgw, process_cart_flat_map by exact Hnn. simpl.
  assert (Hl : length (flat_map (item_links catalogo) itens)
               = length (List.filter (resolves catalogo) itens)).
  { clear. induction itens as [|it itens IH]; [reflexivity|].
    cbn [flat_map List.filter]. rewrite length_app, item_links_shape, IH.
    unfold resolves. destruct (item_id it) as [iid|]; [|reflexivity].
    destruct (find_produto catalogo iid); reflexivity. }
  assert (Hp : length (flat_map (item_entries catalogo) itens)
               = length (List.filter has_id itens)).
  { clear. induction itens as [|it itens IH]; [reflexivity|].
    cbn [flat_map List.filter]. rewrite length_app, item_entries_length, IH.
    unfold has_id. destruct (item_id it); reflexivity. }
  rewrite Hl, Hp. split; [reflexivity|].
  clear. induction itens as [|it itens IH]; [simpl; lia|].
  cbn [List.filter]. unfold resolves at 1, has_id at 1.
  destruct (item_id it) as [iid|]; [destruct (find_produto catalogo iid)|]; simpl; lia.
Qed.

Lemma criar_pagamento_counts_witness :
  to_number (valor_total (JNum preco_49_90)) = Some preco_49_90 /\
  (criar_pagamento catalogo_exemplo (Some carrinho_misto) (Some "Ana") (Some "a@b.com")
     (JNum preco_49_90) (fun _ => GwOk (gw_pagamento "pay123" "pending" preco_49_90))
     1000 "t0" ∅).1
  = CreateOk (g_id (gw_pagamento "pay123" "pending" preco_49_90))
             (g_status (gw_pagamento "pay123" "pending" preco_49_90))
             (g_transaction_data (gw_pagamento "pay123" "pending" preco_49_90))
             (length (List.filter (resolves catalogo_exemplo) carrinho_misto))
             (length (List.filter has_id carrinho_misto)).
Proof.
  split; [reflexivity|].
  apply (criar_pagamento_counts catalogo_exemplo carrinho_misto (Some "Ana")
           (Some "a@b.com") "Ana" "a@b.com" (JNum preco_49_90) preco_49_90
           (fun _ => GwOk (gw_pagamento "pay123" "pending" preco_49_90))
           (gw_pagamento "pay123" "pending" preco_49_90) 1000 "t0" ∅).
  - discriminate.
  - reflexivity.
  - reflexivity.
  - reflexivity.
  - reflexivity.
  - reflexivity.
  - intros [H|[H|[]]]; discriminate.
Defined.

Lemma criar_pagamento_store
    (catalogo : list produto) (itens : list cart_item)
    (nomeCliente email : option string) (nm em : string) (t : jsval) (q : Q)
    (gw_create : create_req -> gw_result) (p : gw_payment) (agora : Z) (iso : string)
    (pagamentos : gmap string registro) :
  itens <> [] ->
  truthy_str nomeCliente = Some nm -> truthy_str email = Some em ->
  to_number (valor_total t) = Some q -> (0 < q)%Q ->
  gw_create {| transaction_amount := valor_total t; payer_email := em;
               payer_first_name := nm |} = GwOk p ->
  ~ In CartNull itens ->
  (criar_pagamento catalogo (Some itens) nomeCliente email t gw_create agora iso
     pagamentos).2
  = <[g_id p := novo_registro p (flat_map (item_links catalogo) itens)
                  (flat_map (item_entries catalogo) itens) itens em nm
                  (valor_total t) agora iso]> pagamentos.
Proof.
  intros Hne Hn He Hq Hpos Hgw Hnn.
  rewrite (criar_pagamento_after_validation _ _ _ _ nm em _ _ _ _ _ Hne Hn He
             (valid_total_checks _ _ Hq Hpos)).
  by rewrite Hgw, process_cart_flat_map.
Qed.

Lemma view_total_novo (p : gw_payment) lks enc car em nm (v : valor) agora iso (q : Q) :
  to_number v = Some q ->
  view_total (novo_registro p lks enc car em nm v agora iso)
  = let c := round64 (q * inject_Z 100) in
    if num_truthy (js_round c) then js_round c
    else if num_truthy c then c else NFin 0.
Proof.
  intros H. unfold to_number in H.
  unfold view_total, novo_registro, math_round_100, js_mul100. simpl.
  destruct (to_num v); try discriminate. injection H as ->. reflexivity.
Qed.

(** Polling a payment just created (from a cart without [null] entries)
    answers with its total in cents as the program computes it in binary64:
    [Math.round(total * 100)], or [total * 100] when that rounds to 0 (lines
    336 and 164), whatever the gateway answers to the poll; the products and
    the link count are those of the creation. *)
Theorem criar_pagamento_status_total
    (catalogo : list produto) (itens : list cart_item)
    (nomeCliente email : option string) (nm em : string) (t : jsval) (q : Q)
    (gw_create : create_req -> gw_result) (p : gw_payment) (agora : Z) (iso : string)
    (pagamentos : gmap string registro) (gw' : string -> gw_result) (agora' : Z)
    (iso' : string) :
  itens <> [] ->
  truthy_str nomeCliente = Some nm -> truthy_str email = Some em ->
  to_number (valor_total t) = Some q -> (0 < q)%Q ->
  gw_create {| transaction_amount := valor_total t; payer_email := em;
               payer_first_name := nm |} = GwOk p ->
  ~ In CartNull itens ->
  exists v,
    (status_pagamento (g_id p) gw' agora' iso'
       (criar_pagamento catalogo (Some itens) nomeCliente email t gw_create agora iso
          pagamentos).2).1.1 = StatusOk v /\
    sv_total v
    = (let c := round64 (q * inject_Z 100) in
       if num_truthy (js_round c) then js_round c
       else if num_truthy c then c else NFin 0) /\
    sv_products v = flat_map (item_entries catalogo) itens /\
    sv_linksCount v = length (flat_map (item_links catalogo) itens).
Proof.
  intros Hne Hn He Hq Hpos Hgw Hnn.
  rewrite (criar_pagamento_store _ _ _ _ nm em _ q _ p _ _ _ Hne Hn He Hq Hpos Hgw Hnn).
  pose proof (view_total_novo p (flat_map (item_links catalogo) itens)
                (flat_map (item_entries catalogo) itens) itens em nm (valor_total t)
                agora iso q Hq) as Hv.
  unfold status_pagamento. rewrite lookup_insert_eq.
  destruct (_ || _)%bool; [destruct (gw' (g_id p))|];
    (eexists; split; [reflexivity|]); exact (conj Hv (conj eq_refl eq_refl)).
Qed.

(** A total of "1,005" (1.005) is reported as 100 cents, not 101:
    [1.005 * 100] is 100.49999999999999 in binary64. *)
Lemma criar_pagamento_status_total_witness :
  exists v,
    (status_pagamento (g_id (gw_pagamento "pay123" "pending" 1))
       (fun _ => GwErr "timeout") 2000 "t1"
       (criar_pagamento catalogo_exemplo (Some [CartStr "p1"]) (Some "Ana") (Some "a@b.com")
          (JStr "1,005") (fun _ => GwOk (gw_pagamento "pay123" "pending" 1))
          1000 "t0" ∅).2).1.1 = StatusOk v /\
    sv_total v = NFin 100.
Proof.
  destruct (criar_pagamento_status_total catalogo_exemplo [CartStr "p1"] (Some "Ana")
              (Some "a@b.com") "Ana" "a@b.com" (JStr "1,005")
              (1131529406376837 # 1125899906842624)
              (fun _ => GwOk (gw_pagamento "pay123" "pending" 1))
              (gw_pagamento "pay123" "pending" 1) 1000 "t0" ∅
              (fun _ => GwErr "timeout") 2000 "t1") as [v [Hv [Ht _]]].
  - discriminate.
  - reflexivity.
  - reflexivity.
  - vm_compute. reflexivity.
  - reflexivity.
  - reflexivity.
  - intros [H|[]]; discriminate.
  - exists v. split; [exact Hv|]. rewrite Ht. vm_compute. reflexivity.
Defined.

(** The purchase flow: after a successful creation from a cart without
    [null] entries, the download route
    refuses with 403 while the created status is not "approved"; once a
    "payment" webhook for the id brings the gateway status "approved", a
    download within 24 hours of the creation returns the links of the
    resolved cart entries (404 when none resolved), with the products, the
    customer name and the submitted total, and after 24 hours answers 410. *)
Theorem compra_webhook_download
    (catalogo : list produto) (itens : list cart_item)
    (nomeCliente email : option string) (nm em : string) (t : jsval) (q : Q)
    (gw_create : create_req -> gw_result) (p p' : gw_payment) (agora : Z) (iso iso' : string)
    (pagamentos : gmap string registro) (gw' : string -> gw_result) (agora' : Z) :
  itens <> [] ->
  truthy_str nomeCliente = Some nm -> truthy_str email = Some em ->
  to_number (valor_total t) = Some q -> (0 < q)%Q ->
  gw_create {| transaction_amount := valor_total t; payer_email := em;
               payer_first_name := nm |} = GwOk p ->
  g_id p <> "" ->
  ~ In CartNull itens ->
  (g_status p <> "approved" ->
     link_download (g_id p) gw' agora'
       (criar_pagamento catalogo (Some itens) nomeCliente email t gw_create agora iso
          pagamentos).2
     = DlNotApproved (g_status p) (g_status_detail p)) /\
  (g_status p' = "approved" -> agora' - agora <= tempoExpiracao ->
     link_download (g_id p) gw' agora'
       (webhook (Some "payment") (Some (g_id p)) (GwOk p') iso'
          (criar_pagamento catalogo (Some itens) nomeCliente email t gw_create agora iso
             pagamentos).2).2
     = match flat_map (item_links catalogo) itens with
       | [] => DlNoLinks
       | lks => DlOk lks (flat_map (item_entries catalogo) itens) (Some nm) (valor_total t)
       end) /\
  (g_status p' = "approved" -> tempoExpiracao < agora' - agora ->
     link_download (g_id p) gw' agora'
       (webhook (Some "payment") (Some (g_id p)) (GwOk p') iso'
          (criar_pagamento catalogo (Some itens) nomeCliente email t gw_create agora iso
             pagamentos).2).2
     = DlExpired).
Proof.
  intros Hne Hn He Hq Hpos Hgw Hid Hnn.
  rewrite (criar_pagamento_store _ _ _ _ nm em _ q _ p _ _ _ Hne Hn He Hq Hpos Hgw Hnn).
  assert (Htr : truthy_str (Some (g_id p)) = Some (g_id p)).
  { destruct (g_id p) as [|c s]; [congruence | reflexivity]. }
  unfold webhook. cbn [fst snd]. rewrite Htr. cbn [String.eqb Ascii.eqb Bool.eqb andb].
  unfold webhook_deferred, updateStatus. rewrite lookup_insert_eq, insert_insert_eq.
  unfold link_download. rewrite !lookup_insert_eq. cbn [status criadoEm links products
    customerName total set_status novo_registro].
  split; [|split].
  - intros Hna. destruct (String.eqb_spec (g_status p) "approved"); [congruence|].
    reflexivity.
  - intros Ha Hw. rewrite Ha. cbn [String.eqb Ascii.eqb Bool.eqb andb negb].
    destruct (Z.ltb_spec tempoExpiracao (agora' - agora)); [lia|].
    destruct (flat_map (item_links catalogo) itens); reflexivity.
  - intros Ha Hw. rewrite Ha. cbn [String.eqb Ascii.eqb Bool.eqb andb negb].
    destruct (Z.ltb_spec tempoExpiracao (agora' - agora)); [reflexivity | lia].
Qed.

Lemma compra_webhook_download_witness :
  to_number (valor_total (JStr "49,90")) = Some preco_49_90 /\
  link_download (g_id (gw_pagamento "pay123" "pending" preco_49_90)) (fun _ => GwErr "unused")
    5000
    (webhook (Some "payment") (Some (g_id (gw_pagamento "pay123" "pending" preco_49_90)))
       (GwOk (gw_pagamento "pay123" "approved" preco_49_90)) "t1"
       (criar_pagamento catalogo_exemplo (Some [CartStr "p1"]) (Some "Ana") (Some "a@b.com")
          (JStr "49,90") (fun _ => GwOk (gw_pagamento "pay123" "pending" preco_49_90))
          1000 "t0" ∅).2).2
  = match flat_map (item_links catalogo_exemplo) [CartStr "p1"] with
    | [] => DlNoLinks
    | lks => DlOk lks (flat_map (item_entries catalogo_exemplo) [CartStr "p1"]) (Some "Ana")
                  (valor_total (JStr "49,90"))
    end.
Proof.
  split; [reflexivity|].
  destruct (compra_webhook_download catalogo_exemplo [CartStr "p1"] (Some "Ana")
              (Some "a@b.com") "Ana" "a@b.com" (JStr "49,90") preco_49_90
              (fun _ => GwOk (gw_pagamento "pay123" "pending" preco_49_90))
              (gw_pagamento "pay123" "pending" preco_49_90)
              (gw_pagamento "pay123" "approved" preco_49_90) 1000 "t0" "t1" ∅
              (fun _ => GwErr "unused") 5000) as [_ [H _]].
  - discriminate.
  - reflexivity.
  - reflexivity.
  - reflexivity.
  - reflexivity.
  - reflexivity.
  - discriminate.
  - intros [Hc|[]]; discriminate.
  - apply H; [reflexivity | vm_compute; discriminate].
Defined.

(* ------------------------------------------------------------------ *)
(** ** Further properties of server.js: the sweep *)

(** A sweep at a later time subsumes an earlier one: sweeping at [agora1]
    and then at [agora2 >= agora1] leaves what the sweep at [agora2] alone
    leaves; in particular a second sweep at the same time changes nothing. *)
Theorem remover_antigos_later (limite agora1 agora2 : Z) (pagamentos : gmap string registro) :
  agora1 <= agora2 ->
  remover_antigos limite agora2 (remover_antigos limite agora1 pagamentos)
  = remover_antigos limite agora2 pagamentos.
Proof.
  intros Hle. apply map_eq. intros i. unfold remover_antigos.
  rewrite !map_lookup_filter. destruct (pagamentos !! i) as [r|]; simpl; [|reflexivity].
  repeat (case_guard; simpl in *); try reflexivity; lia.
Qed.

Lemma remover_antigos_later_witness :
  limpeza (2 * umaHora) (limpeza umaHora (loja_exemplo (registro_exemplo "approved" 0 [])))
  = limpeza (2 * umaHora) (loja_exemplo (registro_exemplo "approved" 0 [])).
Proof.
  exact (remover_antigos_later umaHora umaHora (2 * umaHora)
           (loja_exemplo (registro_exemplo "approved" 0 [])) ltac:(vm_compute; discriminate)).
Defined.

(* ------------------------------------------------------------------ *)
(** ** Further properties of routes.ts: [retryWithBackoff] *)

(** With [maxRetries <= 0] the loop body never runs: [fn] is not called and
    the helper throws "Max retries exceeded" at once. *)
Theorem retryWithBackoff_no_attempts {T E : Type} (fn : nat -> Retry.outcome T E)
    (maxRetries delay : Z) :
  maxRetries <= 0 ->
  Retry.retryWithBackoff fn maxRetries delay = ([], Retry.MaxRetriesExceeded).
Proof.
  intros H. unfold Retry.retryWithBackoff. by replace (Z.to_nat maxRetries) with 0%nat by lia.
Qed.

Lemma retryWithBackoff_no_attempts_witness :
  Retry.retryWithBackoff falha_duas_vezes 0 500 = ([], Retry.MaxRetriesExceeded).
Proof. exact (retryWithBackoff_no_attempts falha_duas_vezes 0 500 ltac:(lia)). Defined.

Lemma total_sleep_app (a b : list Retry.event) :
  total_sleep (a ++ b) = total_sleep a + total_sleep b.
Proof.
  induction a as [|[i|ms] a IH]; simpl; [reflexivity | exact IH | rewrite IH; lia].
Qed.

Lemma total_sleep_schedule (delay : Z) (k : nat) :
  2 * total_sleep (Retry.schedule delay 0 k) = delay * Z.of_nat k * (Z.of_nat k + 1).
Proof.
  unfold Retry.schedule. rewrite Nat.sub_0_r, total_sleep_app. simpl (total_sleep [_]).
  induction k as [|k IH]; [simpl; lia|].
  rewrite seq_S, flat_map_app, total_sleep_app.
  cbn [total_sleep flat_map app] in IH |- *. rewrite Nat2Z.inj_succ. nia.
Qed.

(** The total time the helper waits: when call [k] is the first to succeed,
    the waits before it sum to [delay * k * (k + 1) / 2]; when all
    [maxRetries] calls fail, they sum to [delay * (maxRetries - 1) * maxRetries / 2]
    (no wait after the last call). *)
Theorem retryWithBackoff_total_wait {T E : Type} (fn : nat -> Retry.outcome T E)
    (maxRetries delay : Z) :
  1 <= maxRetries ->
  (forall (k : nat) (v : T), Z.of_nat k < maxRetries ->
     (forall j, (j < k)%nat -> Retry.is_err (fn j)) -> fn k = Retry.Ok v ->
     2 * total_sleep (Retry.retryWithBackoff fn maxRetries delay).1
     = delay * Z.of_nat k * (Z.of_nat k + 1)) /\
  (forall e : E, (forall j, Z.of_nat j < maxRetries - 1 -> Retry.is_err (fn j)) ->
     fn (Z.to_nat (maxRetries - 1)) = Retry.Err e ->
     2 * total_sleep (Retry.retryWithBackoff fn maxRetries delay).1
     = delay * (maxRetries - 1) * maxRetries).
Proof.
  intros Hm. unfold Retry.retryWithBackoff. split.
  - intros k v Hk Herr Hok.
    rewrite (loop_returns fn maxRetries delay (Z.to_nat maxRetries) 0 k v);
      [| lia | lia | intros j Hj; apply Herr; lia | exact Hok].
    apply total_sleep_schedule.
  - intros e Herr Hlast.
    rewrite (loop_throws fn maxRetries delay (Z.to_nat maxRetries) 0 e);
      [| lia | lia | intros j Hj; apply Herr; lia
       | replace (0 + Z.to_nat maxRetries - 1)%nat with (Z.to_nat (maxRetries - 1)) by lia;
         exact Hlast].
    cbn [fst]. rewrite total_sleep_schedule.
    replace (Z.of_nat (0 + Z.to_nat maxRetries - 1)) with (maxRetries - 1) by lia.
    ring.
Qed.

Lemma retryWithBackoff_total_wait_witness :
  2 * total_sleep (Retry.retryWithBackoff falha_duas_vezes 3 500).1
  = 500 * Z.of_nat 2 * (Z.of_nat 2 + 1).
Proof.
  apply (proj1 (retryWithBackoff_total_wait falha_duas_vezes 3 500 ltac:(lia)) 2%nat "rows").
  - lia.
  - intros j Hj. destruct j as [|[|j]]; simpl; auto; lia.
  - reflexivity.
Defined.

(* ------------------------------------------------------------------ *)
(** ** Produtos.js: the catalog operations *)

(** After [removerProduto id] no product has the id [id], every other id is
    looked up as before, and the remaining products are exactly the old
    ones with another id. *)
Theorem removerProduto_spec (id : string) (produtos : list produto) :
  getProdutoPorId (removerProduto id produtos) id = None /\
  (forall j, j <> id ->
     getProdutoPorId (removerProduto id produtos) j = getProdutoPorId produtos j) /\
  (forall p, In p (removerProduto id produtos) <-> In p produtos /\ p_id p <> id).
Proof.
  unfold getProdutoPorId, removerProduto. split; [|split].
  - induction produtos as [|p ps IH]; [reflexivity|]. simpl.
    destruct (String.eqb_spec (p_id p) id) as [Heq|Hne]; simpl; [exact IH|].
    destruct (String.eqb_spec (p_id p) id); [congruence | exact IH].
  - intros j Hj. induction produtos as [|p ps IH]; [reflexivity|]. simpl.
    destruct (String.eqb_spec (p_id p) id) as [Heq|Hne]; simpl.
    + destruct (String.eqb_spec (p_id p) j); [congruence | exact IH].
    + destruct (String.eqb (p_id p) j); [reflexivity | exact IH].
  - intros p. rewrite filter_In. destruct (String.eqb_spec (p_id p) id); simpl;
      split; intros [H1 H2]; split; auto; discriminate.
Qed.

(** [getProdutoPorId] after [adicionarProduto novo]: an id already in the
    catalog still finds its first product (the new one is shadowed), and
    otherwise the id of [novo] finds [novo]. *)
Theorem adicionarProduto_lookup (novo : produto) (produtos : list produto) (j : string) :
  getProdutoPorId (adicionarProduto novo produtos) j
  = match getProdutoPorId produtos j with
    | Some p => Some p
    | None => if String.eqb (p_id novo) j then Some novo else None
    end.
Proof.
  unfold getProdutoPorId, adicionarProduto.
  induction produtos as [|p ps IH]; simpl; [reflexivity|].
  destruct (String.eqb (p_id p) j); [reflexivity | exact IH].
Qed.

(* ------------------------------------------------------------------ *)
(** ** server.js: admin routes *)

(** POST /admin/produtos: without the exact header "Bearer senha-secreta"
    the answer is 401 and the catalog is unchanged; with it, a missing or
    empty name or link, or a price that is absent or 0, gives 400 and an
    unchanged catalog; any other price, negative ones included, is
    accepted: the product with id [uuid] is appended, and when [uuid] is
    fresh the cart lookup of /criar-pagamento then finds it. *)
Theorem admin_adicionar_spec (authorization nome : option string) (preco : option Q)
    (linkDownload : option string) (uuid : string) (produtos : list produto) :
  (verificarAuth authorization = true <-> authorization = Some "Bearer senha-secreta") /\
  (verificarAuth authorization = false ->
     admin_adicionar authorization nome preco linkDownload uuid produtos
     = (AdminUnauthorized, produtos)) /\
  (verificarAuth authorization = true ->
     (truthy_str nome = None \/ truthy_str linkDownload = None \/ preco = None \/
      exists pr, preco = Some pr /\ (pr == 0)%Q) ->
     admin_adicionar authorization nome preco linkDownload uuid produtos
     = (AdminBadRequest, produtos)) /\
  (forall n pr l, verificarAuth authorization = true ->
     truthy_str nome = Some n -> preco = Some pr -> ~ (pr == 0)%Q ->
     truthy_str linkDownload = Some l ->
     let novo := {| p_id := uuid; p_nome := n; p_preco := pr; p_linkDownload := l |} in
     admin_adicionar authorization nome preco linkDownload uuid produtos
     = (AdminAdded novo, produtos ++ [novo]) /\
     (getProdutoPorId produtos uuid = None -> find_produto (produtos ++ [novo]) uuid = Some novo)).
Proof.
  unfold admin_adicionar. split; [|split; [|split]].
  - unfold verificarAuth. destruct authorization as [a|]; [|split; discriminate].
    destruct (String.eqb_spec a "Bearer senha-secreta") as [->|Hne];
      split; congruence.
  - intros H. by rewrite H.
  - intros H Hbad. rewrite H. simpl.
    destruct Hbad as [Hn|[Hl|[Hp|[pr [Hp Hz]]]]].
    + by rewrite Hn.
    + rewrite Hl. destruct (truthy_str nome), preco; reflexivity.
    + rewrite Hp. destruct (truthy_str nome); reflexivity.
    + rewrite Hp. apply Qeq_bool_iff in Hz. rewrite Hz.
      destruct (truthy_str nome), (truthy_str linkDownload); reflexivity.
  - intros n pr l H Hn Hp Hz Hl. rewrite H, Hn, Hp, Hl. simpl.
    destruct (Qeq_bool pr 0) eqn:Eq; [apply Qeq_bool_iff in Eq; contradiction|].
    split; [reflexivity|]. intros Hfresh.
    pose proof (adicionarProduto_lookup
                  {| p_id := uuid; p_nome := n; p_preco := pr; p_linkDownload := l |}
                  produtos uuid) as Hadd.
    unfold adicionarProduto, getProdutoPorId in Hadd, Hfresh. unfold find_produto.
    rewrite Hadd, Hfresh. simpl. by rewrite String.eqb_refl.
Qed.

Lemma admin_adicionar_spec_witness :
  admin_adicionar (Some "Bearer senha-secreta") (Some "Ebook") (Some (-5)%Q)
    (Some "https://x/e.pdf") "u1" catalogo_exemplo
  = (AdminAdded {| p_id := "u1"; p_nome := "Ebook"; p_preco := (-5)%Q;
                   p_linkDownload := "https://x/e.pdf" |},
     catalogo_exemplo ++ [{| p_id := "u1"; p_nome := "Ebook"; p_preco := (-5)%Q;
                             p_linkDownload := "https://x/e.pdf" |}]).
Proof.
  apply (proj1 (proj2 (proj2 (proj2
           (admin_adicionar_spec (Some "Bearer senha-secreta") (Some "Ebook") (Some (-5)%Q)
              (Some "https://x/e.pdf") "u1" catalogo_exemplo)))
           "Ebook" (-5)%Q "https://x/e.pdf" eq_refl eq_refl eq_refl
           ltac:(discriminate) eq_refl)).
Defined.

(** DELETE /admin/produtos/:id: without authorisation the answer is 401 and
    the catalog is unchanged; with it the answer is a success carrying [id]
    whether or not a product had that id, and afterwards the cart lookup of
    /criar-pagamento no longer finds [id] (a cart entry with it becomes a
    price-0 placeholder without a link) while every other id resolves as
    before. *)
Theorem admin_remover_spec (authorization : option string) (id : string)
    (produtos : list produto) :
  (verificarAuth authorization = false ->
     admin_remover authorization id produtos = (AdminUnauthorized, produtos)) /\
  (verificarAuth authorization = true ->
     (admin_remover authorization id produtos).1 = AdminRemoved id /\
     find_produto (admin_remover authorization id produtos).2 id = None /\
     (forall j, j <> id ->
        find_produto (admin_remover authorization id produtos).2 j = find_produto produtos j) /\
     (forall item, item_id item = Some id ->
        item_links (admin_remover authorization id produtos).2 item = [] /\
        exists e, item_entries (admin_remover authorization id produtos).2 item = [e] /\
                  pi_id e = id /\ pi_price e = 0%Q /\ pi_downloadUrl e = None)).
Proof.
  unfold admin_remover. split.
  - intros H. by rewrite H.
  - intros H. rewrite H. simpl.
    destruct (removerProduto_spec id produtos) as [Hgone [Hother _]].
    unfold getProdutoPorId in Hgone, Hother. unfold find_produto.
    split; [reflexivity|]. split; [exact Hgone|]. split; [exact Hother|].
    intros item Hid. destruct (item_id_fields _ _ Hid) as [nm [qt Ef]].
    unfold item_links, item_entries, process_item. rewrite Ef.
    unfold find_produto. rewrite Hgone. simpl. split; [reflexivity|].
    eexists. split; [reflexivity|]. repeat split.
Qed.

(* ------------------------------------------------------------------ *)
(** ** server.js: CORS *)

(** The origin callback accepts exactly the requests without an Origin (or
    with an empty one) and those from one of the three allowed origins. *)
Theorem cors_origin_spec (origin : option string) :
  cors_origin origin = true <->
  truthy_str origin = None \/ exists o, origin = Some o /\ In o allowedOrigins.
Proof.
  unfold cors_origin. destruct (truthy_str origin) as [o|] eqn:E.
  - assert (Ho : origin = Some o).
    { destruct origin as [[|c s]|]; simpl in E; congruence. }
    unfold includes. destruct (existsb (String.eqb o) allowedOrigins) eqn:Ex.
    + apply existsb_exists in Ex as [x [Hin Hx]]. apply String.eqb_eq in Hx. subst x.
      split; [intros _; right; eauto | reflexivity].
    + split; [discriminate|]. intros [[=] | [o' [Ho' Hin]]].
      rewrite Ho in Ho'. injection Ho' as <-.
      assert (existsb (String.eqb o) allowedOrigins = true) as Ht.
      { apply existsb_exists. exists o. split; [exact Hin | apply String.eqb_refl]. }
      congruence.
  - split; [intros _; left; reflexivity | reflexivity].
Qed.

(* ------------------------------------------------------------------ *)
(** ** routes.ts: GET /api/payments/status-pagamento/:paymentId *)

(** The route never writes a status other than "approved", and writes it
    only when the gateway reports "approved" for an order whose stored
    status is not "approved"; it lists downloads only when the gateway
    reports "approved" and the order exists, and then exactly the order's
    items with a non-empty download URL. *)
Theorem routes_status_pagamento_spec (paymentId : string) (configured : bool)
    (gw : gw_result) (pd : option pedido) :
  (forall u, In u (routes_status_pagamento paymentId configured gw pd).2 -> u = "approved") /\
  ((routes_status_pagamento paymentId configured gw pd).2 <> [] ->
     exists p d, gw = GwOk p /\ g_status p = "approved" /\ pd = Some d /\
                 pd_status d <> "approved") /\
  (forall st dls, (routes_status_pagamento paymentId configured gw pd).1 = RsOk st dls ->
     dls <> [] ->
     st = "approved" /\ exists d, pd = Some d /\ dls = downloads_of (pd_itens d)) /\
  (forall st dls x, (routes_status_pagamento paymentId configured gw pd).1 = RsOk st dls ->
     In x dls -> di_download_url x <> "").
Proof.
  assert (Hurl : forall itens x, In x (downloads_of itens) -> di_download_url x <> "").
  { intros itens x. unfold downloads_of. rewrite in_flat_map. intros [it [_ Hx]].
    destruct (it_download_url it) as [[|c s]|]; simpl in Hx;
      try contradiction; destruct Hx as [<-|[]]; simpl; discriminate. }
  unfold routes_status_pagamento.
  destruct (String.eqb paymentId ""); [|destruct (negb configured);
    [|destruct gw as [p|msg]; [destruct (String.eqb_spec (g_status p) "approved") as [Ha|Ha];
      destruct pd as [d|]; [destruct (String.eqb_spec (pd_status d) "approved") as [Hd|Hd]| | |]|]]];
    simpl.
  all: split; [intros u Hu; simpl in Hu; intuition congruence|].
  all: split; [intros Hne; first [congruence | exists p, d; auto]|].
  all: split; [intros st0 dls Hr Hdl; first [discriminate | injection Hr as <- <-];
               first [congruence | split; [assumption | eauto]]|].
  all: intros st0 dls x Hr Hx; first [discriminate | injection Hr as _ <-];
       first [exact (Hurl _ _ Hx) | destruct Hx].
Qed.

(* ------------------------------------------------------------------ *)
(** ** server.js: parsing and validation of the declared total *)

(** In server.js's POST /criar-pagamento a string total is normalised by
    removing the first "R$", removing every ".", and then replacing the
    first "," with "." before [parseFloat] (which trims white space, reads
    "Infinity" and rounds to binary64); a numeric total is used as it is;
    and, for a numeric or string total (once the cart, name and email
    checks pass), the handler fails with the 400 "Valor total inválido."
    error exactly when the resulting value is not a positive number (NaN
    or at most 0; +Infinity passes). *)
Theorem criar_pagamento_total_validation
    (catalogo : list produto) (itens : list cart_item)
    (nomeCliente email : option string) (nm em : string) (t : jsval)
    (gw_create : create_req -> gw_result) (agora : Z) (iso : string)
    (pagamentos : gmap string registro) :
  itens <> [] ->
  truthy_str nomeCliente = Some nm -> truthy_str email = Some em ->
  (forall s, valor_total (JStr s)
             = parseFloat (replace_first "," "." (remove_all "." (replace_first "R$" "" s)))) /\
  (forall q, valor_total (JNum q) = VNum q) /\
  ((exists s, t = JStr s) \/ (exists q, t = JNum q) ->
     ((criar_pagamento catalogo (Some itens) nomeCliente email t gw_create agora iso
         pagamentos).1 = CreateBadRequest "Valor total inválido."
      <-> ~ positive_number (valor_total t))).
Proof.
  intros Hne Hn He. split; [reflexivity|]. split; [reflexivity|].
  intros Ht.
  assert (Hnum : (exists q, valor_total t = VNum q) \/ (exists neg, valor_total t = VInf neg) \/
                 valor_total t = VNaN).
  { destruct Ht as [[s ->]|[q ->]]; [apply parseFloat_number | left; eauto]. }
  pose proof (validation_fails_iff _ Hnum) as Hiff.
  unfold criar_pagamento. destruct itens as [|i0 itens]; [congruence|].
  rewrite Hn, He. cbv zeta.
  destruct (isNaN (valor_total t) || le_zero (valor_total t))%bool eqn:E.
  - simpl. split; [intros _; apply Hiff; reflexivity | reflexivity].
  - split.
    + destruct (gw_create _); [destruct (process_cart _ _) as [[lks enc]|]|]; discriminate.
    + intros Hnp. apply Hiff in Hnp. discriminate.
Qed.

Lemma criar_pagamento_total_validation_witness :
  (exists s, JStr "R$ 0,00" = JStr s) /\
  ((criar_pagamento catalogo_exemplo (Some [CartStr "p1"]) (Some "Ana") (Some "a@b.com")
      (JStr "R$ 0,00") (fun _ => GwErr "unused") 0 "t0" ∅).1
     = CreateBadRequest "Valor total inválido."
   <-> ~ positive_number (valor_total (JStr "R$ 0,00"))).
Proof.
  split; [eexists; reflexivity|].
  destruct (criar_pagamento_total_validation catalogo_exemplo [CartStr "p1"] (Some "Ana")
              (Some "a@b.com") "Ana" "a@b.com" (JStr "R$ 0,00") (fun _ => GwErr "unused")
              0 "t0" ∅) as [_ [_ H]]; [discriminate | reflexivity | reflexivity |].
  apply H. left. eexists. reflexivity.
Defined.
